(** * hsync: reconciliation protocol of the note synchroniser

    A shallow embedding of the Go sources of hsync
    ([internal/merger], [internal/protocol], [internal/server],
    [internal/client]) together with the properties of the pull phase,
    the push phase and the reconcile-and-write operation.

    Go strings are [string]; Go maps are [gmap]; the file system, the
    in-memory base ledger and the network are threaded explicitly through
    the functions that touch them. *)

From Stdlib Require Import Ascii String.
From stdpp Require Import base decidable option list sorting gmap strings.

Local Open Scope nat_scope.

(** ** Go strings *)

Abbreviation runes := list_ascii_of_string.
Abbreviation text_of := string_of_list_ascii.

(** [strings.HasSuffix] *)
Definition strings_HasSuffix (s suffix : string) : bool :=
  let n := String.length s in
  let m := String.length suffix in
  (m <=? n) && bool_decide (String.substring (n - m) m s = suffix).

(** ** path/filepath (Unix) *)
Module filepath.

Definition Separator : ascii := "/"%char.

Definition isSep (c : ascii) : bool := bool_decide (c = Separator).

(** Strips leading separators of a reversed path, that is the trailing
    separators of the path. *)
Fixpoint stripSeps (r : list ascii) : list ascii :=
  match r with
  | c :: r' => if isSep c then stripSeps r' else r
  | [] => []
  end.

(** The characters before the first separator. *)
Fixpoint untilSep (r : list ascii) : list ascii :=
  match r with
  | c :: r' => if isSep c then [] else c :: untilSep r'
  | [] => []
  end.

(** [filepath.Base]: the last element of the path; trailing separators
    are removed first; the empty path gives ".", a path of separators
    only gives "/". *)
Definition Base (path : string) : string :=
  if bool_decide (path = "") then "."
  else
    let stripped := stripSeps (reverse (runes path)) in
    let last := reverse (untilSep stripped) in
    if bool_decide (last = []) then "/" else text_of last.

(** Splits a path at every separator. *)
Fixpoint splitSep (cur : list ascii) (p : list ascii) : list (list ascii) :=
  match p with
  | [] => [reverse cur]
  | c :: p' => if isSep c then reverse cur :: splitSep [] p'
               else splitSep (c :: cur) p'
  end.

Definition dot : list ascii := runes ".".
Definition dotdot : list ascii := runes "..".

(** The element stack of [filepath.Clean]; [out] is kept reversed. *)
Fixpoint cleanElems (rooted : bool) (out : list (list ascii))
    (elems : list (list ascii)) : list (list ascii) :=
  match elems with
  | [] => reverse out
  | e :: rest =>
      if bool_decide (e = []) || bool_decide (e = dot) then
        cleanElems rooted out rest
      else if bool_decide (e = dotdot) then
        match out with
        | top :: out' =>
            if bool_decide (top = dotdot) then cleanElems rooted (e :: out) rest
            else cleanElems rooted out' rest
        | [] =>
            if rooted then cleanElems rooted [] rest
            else cleanElems rooted [e] rest
        end
      else cleanElems rooted (e :: out) rest
  end.

Fixpoint joinSep (elems : list (list ascii)) : list ascii :=
  match elems with
  | [] => []
  | [e] => e
  | e :: rest => e ++ Separator :: joinSep rest
  end.

(** [filepath.Clean]: the shortest path equivalent to [path] by purely
    lexical processing. *)
Definition Clean (path : string) : string :=
  let p := runes path in
  match p with
  | [] => "."
  | c :: _ =>
      let rooted := isSep c in
      let body := joinSep (cleanElems rooted [] (splitSep [] p)) in
      if rooted then text_of (Separator :: body)
      else if bool_decide (body = []) then "."
      else text_of body
  end.

(** [filepath.Join]: the non-empty elements joined by the separator,
    then cleaned; all elements empty gives the empty string. *)
Definition Join (elem : list string) : string :=
  match filter (λ e, e ≠ "") elem with
  | [] => ""
  | es => Clean (text_of (joinSep (runes <$> es)))
  end.

End filepath.

(** ** The diff/patch primitive *)

(** Modelled from the spec: the package
    [github.com/sergi/go-diff/diffmatchpatch] that [ThreeWayMerge] calls is
    a third-party dependency and not part of the sources. The spec treats
    it as a black box: [PatchMake] computes an edit script from one text
    to another, [PatchApply] applies an edit script to a target, best
    effort, silently skipping a patch whose context does not match. The
    model below follows the structure of that package: a diff is a list of
    delete/insert/equal operations, a patch is a group of operations with
    context and expected position, application pads the text, locates each
    patch and substitutes. Texts are sequences of characters. The general
    (Myers) differ is modelled by its coarsest result, delete everything
    and insert everything, once common prefix, common suffix and
    containment are factored out; the fuzzy (Bitap) locator is modelled by
    the nearest exact occurrence. *)
Module diffmatchpatch.

Inductive Operation := DiffDelete | DiffInsert | DiffEqual.

#[global] Instance Operation_eq_dec : EqDecision Operation.
Proof. solve_decision. Defined.

Record Diff := mkDiff { Type_ : Operation; Text : list ascii }.

#[global] Instance Diff_eq_dec : EqDecision Diff.
Proof. solve_decision. Defined.

Record Patch := mkPatch {
  diffs : list Diff;
  Start1 : nat;
  Start2 : nat;
  Length1 : nat;
  Length2 : nat
}.

Definition PatchMargin : nat := 4.
Definition MatchMaxBits : nat := 32.

Fixpoint commonPrefixLength (text1 text2 : list ascii) : nat :=
  match text1, text2 with
  | c1 :: t1, c2 :: t2 =>
      if bool_decide (c1 = c2) then S (commonPrefixLength t1 t2) else 0
  | _, _ => 0
  end.

Definition commonSuffixLength (text1 text2 : list ascii) : nat :=
  commonPrefixLength (reverse text1) (reverse text2).

Fixpoint hasPrefix (pattern text : list ascii) : bool :=
  match pattern, text with
  | [], _ => true
  | p :: pattern', c :: text' => bool_decide (p = c) && hasPrefix pattern' text'
  | _ :: _, [] => false
  end.

(** Every position at which [pattern] occurs in [text], ascending. *)
Fixpoint occurrences (text pattern : list ascii) : list nat :=
  match text with
  | [] => if hasPrefix pattern [] then [0] else []
  | _ :: text' =>
      (if hasPrefix pattern text then [0] else [])
        ++ (S <$> occurrences text' pattern)
  end.

(** [strings.Index] and [strings.LastIndex]; [None] stands for -1. *)
Definition Index (text pattern : list ascii) : option nat :=
  head (occurrences text pattern).
Definition LastIndex (text pattern : list ascii) : option nat :=
  last (occurrences text pattern).

(** [text[i:j]] *)
Definition slice (text : list ascii) (i j : nat) : list ascii :=
  take (j - i) (drop i text).

(** The texts before and after a list of diffs. *)
Definition DiffText1 (ds : list Diff) : list ascii :=
  concat ((λ d, match Type_ d with DiffInsert => [] | _ => Text d end) <$> ds).
Definition DiffText2 (ds : list Diff) : list ascii :=
  concat ((λ d, match Type_ d with DiffDelete => [] | _ => Text d end) <$> ds).

(** Drops empty operations and merges neighbours of the same type. *)
Fixpoint DiffCleanupMerge (ds : list Diff) : list Diff :=
  match ds with
  | [] => []
  | d :: rest =>
      if bool_decide (Text d = []) then DiffCleanupMerge rest
      else
        match DiffCleanupMerge rest with
        | d' :: rest' =>
            if bool_decide (Type_ d = Type_ d')
            then mkDiff (Type_ d) (Text d ++ Text d') :: rest'
            else d :: d' :: rest'
        | [] => [d]
        end
  end.

Definition diffCompute (text1 text2 : list ascii) : list Diff :=
  if bool_decide (text1 = []) then [mkDiff DiffInsert text2]
  else if bool_decide (text2 = []) then [mkDiff DiffDelete text1]
  else
    let longer := bool_decide (length text2 < length text1) in
    let longtext := if longer then text1 else text2 in
    let shorttext := if longer then text2 else text1 in
    match Index longtext shorttext with
    | Some i =>
        let op := if longer then DiffDelete else DiffInsert in
        [ mkDiff op (take i longtext);
          mkDiff DiffEqual shorttext;
          mkDiff op (drop (i + length shorttext) longtext) ]
    | None => [ mkDiff DiffDelete text1; mkDiff DiffInsert text2 ]
    end.

Definition DiffMain (text1 text2 : list ascii) : list Diff :=
  if bool_decide (text1 = text2) then
    if bool_decide (text1 = []) then [] else [mkDiff DiffEqual text1]
  else
    let n := commonPrefixLength text1 text2 in
    let commonprefix := take n text1 in
    let text1 := drop n text1 in
    let text2 := drop n text2 in
    let m := commonSuffixLength text1 text2 in
    let commonsuffix := drop (length text1 - m) text1 in
    let text1 := take (length text1 - m) text1 in
    let text2 := take (length text2 - m) text2 in
    let ds := diffCompute text1 text2 in
    let ds := if bool_decide (commonprefix = []) then ds
              else mkDiff DiffEqual commonprefix :: ds in
    let ds := if bool_decide (commonsuffix = []) then ds
              else ds ++ [mkDiff DiffEqual commonsuffix] in
    DiffCleanupMerge ds.

(** The pattern of [PatchAddContext] grows by [PatchMargin] on both
    sides until it is unique in [text] or long enough. *)
Fixpoint growPadding (fuel : nat) (text : list ascii) (start len padding : nat)
    : nat :=
  let pattern := slice text (start - padding) (min (length text) (start + len + padding)) in
  match fuel with
  | 0 => padding
  | S fuel' =>
      if bool_decide (Index text pattern ≠ LastIndex text pattern)
         && bool_decide (length pattern < MatchMaxBits - 2 * PatchMargin)
      then growPadding fuel' text start len (padding + PatchMargin)
      else padding
  end.

Definition PatchAddContext (patch : Patch) (text : list ascii) : Patch :=
  if bool_decide (text = []) then patch
  else
    let padding :=
      growPadding MatchMaxBits text (Start2 patch) (Length1 patch) 0 + PatchMargin in
    let prefix := slice text (Start2 patch - padding) (Start2 patch) in
    let suffix :=
      slice text (Start2 patch + Length1 patch)
        (min (length text) (Start2 patch + Length1 patch + padding)) in
    let ds := if bool_decide (prefix = []) then diffs patch
              else mkDiff DiffEqual prefix :: diffs patch in
    let ds := if bool_decide (suffix = []) then ds
              else ds ++ [mkDiff DiffEqual suffix] in
    {| diffs := ds;
       Start1 := Start1 patch - length prefix;
       Start2 := Start2 patch - length prefix;
       Length1 := Length1 patch + length prefix + length suffix;
       Length2 := Length2 patch + length prefix + length suffix |}.

Definition emptyPatch : Patch := mkPatch [] 0 0 0 0.

(** The loop state of [PatchMake]. *)
Record makeState := mkMake {
  patches : list Patch;
  patch : Patch;
  charCount1 : nat;
  charCount2 : nat;
  prepatchText : list ascii;
  postpatchText : list ascii
}.

(** One iteration of the loop of [PatchMake] over the diffs; [isLast]
    tells whether [aDiff] is the last diff. *)
Definition makeStep (st : makeState) (isLast : bool) (aDiff : Diff) : makeState :=
  let p := patch st in
  let p := if bool_decide (diffs p = []) && bool_decide (Type_ aDiff ≠ DiffEqual)
           then {| diffs := diffs p; Start1 := charCount1 st;
                   Start2 := charCount2 st;
                   Length1 := Length1 p; Length2 := Length2 p |}
           else p in
  let n := length (Text aDiff) in
  let st :=
    match Type_ aDiff with
    | DiffInsert =>
        {| patches := patches st;
           patch := {| diffs := diffs p ++ [aDiff]; Start1 := Start1 p;
                       Start2 := Start2 p; Length1 := Length1 p;
                       Length2 := Length2 p + n |};
           charCount1 := charCount1 st; charCount2 := charCount2 st;
           prepatchText := prepatchText st;
           postpatchText :=
             take (charCount2 st) (postpatchText st) ++ Text aDiff
               ++ drop (charCount2 st) (postpatchText st) |}
    | DiffDelete =>
        {| patches := patches st;
           patch := {| diffs := diffs p ++ [aDiff]; Start1 := Start1 p;
                       Start2 := Start2 p; Length1 := Length1 p + n;
                       Length2 := Length2 p |};
           charCount1 := charCount1 st; charCount2 := charCount2 st;
           prepatchText := prepatchText st;
           postpatchText :=
             take (charCount2 st) (postpatchText st)
               ++ drop (charCount2 st + n) (postpatchText st) |}
    | DiffEqual =>
        let p :=
          if bool_decide (n ≤ 2 * PatchMargin) && bool_decide (diffs p ≠ [])
             && negb isLast
          then {| diffs := diffs p ++ [aDiff]; Start1 := Start1 p;
                  Start2 := Start2 p; Length1 := Length1 p + n;
                  Length2 := Length2 p + n |}
          else p in
        if bool_decide (2 * PatchMargin ≤ n) && bool_decide (diffs p ≠ [])
        then {| patches := patches st ++ [PatchAddContext p (prepatchText st)];
                patch := emptyPatch;
                charCount1 := charCount2 st; charCount2 := charCount2 st;
                prepatchText := postpatchText st;
                postpatchText := postpatchText st |}
        else {| patches := patches st; patch := p;
                charCount1 := charCount1 st; charCount2 := charCount2 st;
                prepatchText := prepatchText st;
                postpatchText := postpatchText st |}
    end in
  {| patches := patches st; patch := patch st;
     charCount1 := if bool_decide (Type_ aDiff ≠ DiffInsert)
                   then charCount1 st + n else charCount1 st;
     charCount2 := if bool_decide (Type_ aDiff ≠ DiffDelete)
                   then charCount2 st + n else charCount2 st;
     prepatchText := prepatchText st; postpatchText := postpatchText st |}.

Fixpoint makeLoop (st : makeState) (ds : list Diff) : makeState :=
  match ds with
  | [] => st
  | aDiff :: rest => makeLoop (makeStep st (bool_decide (rest = [])) aDiff) rest
  end.

(** [PatchMake(text1, diffs)] *)
Definition patchMake2 (text1 : list ascii) (ds : list Diff) : list Patch :=
  if bool_decide (ds = []) then []
  else
    let st := makeLoop (mkMake [] emptyPatch 0 0 text1 text1) ds in
    if bool_decide (diffs (patch st) ≠ [])
    then patches st ++ [PatchAddContext (patch st) (prepatchText st)]
    else patches st.

(** Modelled from the spec: [PatchMake(text1, text2)] of the package
    [diffmatchpatch], which is not among the sources; it computes the edit
    script from [text1] to [text2]. *)
Definition PatchMake (text1 text2 : string) : list Patch :=
  patchMake2 (runes text1) (DiffMain (runes text1) (runes text2)).

(** The padding text of [PatchAddPadding]: the characters 1..PatchMargin. *)
Definition nullPadding : list ascii :=
  (λ x, ascii_of_nat x) <$> seq 1 PatchMargin.

Definition bump (p : Patch) : Patch :=
  {| diffs := diffs p; Start1 := Start1 p + PatchMargin;
     Start2 := Start2 p + PatchMargin;
     Length1 := Length1 p; Length2 := Length2 p |}.

(** Padding at the start of the first patch. *)
Definition padFirst (p : Patch) : Patch :=
  match diffs p with
  | d :: ds =>
      if bool_decide (Type_ d ≠ DiffEqual) then
        {| diffs := mkDiff DiffEqual nullPadding :: diffs p;
           Start1 := Start1 p - PatchMargin; Start2 := Start2 p - PatchMargin;
           Length1 := Length1 p + PatchMargin; Length2 := Length2 p + PatchMargin |}
      else if bool_decide (length (Text d) < PatchMargin) then
        let extraLength := PatchMargin - length (Text d) in
        {| diffs := mkDiff DiffEqual (drop (length (Text d)) nullPadding ++ Text d) :: ds;
           Start1 := Start1 p - extraLength; Start2 := Start2 p - extraLength;
           Length1 := Length1 p + extraLength; Length2 := Length2 p + extraLength |}
      else p
  | [] =>
      {| diffs := [mkDiff DiffEqual nullPadding];
         Start1 := Start1 p - PatchMargin; Start2 := Start2 p - PatchMargin;
         Length1 := Length1 p + PatchMargin; Length2 := Length2 p + PatchMargin |}
  end.

(** Padding at the end of the last patch. *)
Definition padLast (p : Patch) : Patch :=
  match last (diffs p) with
  | Some d =>
      if bool_decide (Type_ d ≠ DiffEqual) then
        {| diffs := diffs p ++ [mkDiff DiffEqual nullPadding];
           Start1 := Start1 p; Start2 := Start2 p;
           Length1 := Length1 p + PatchMargin; Length2 := Length2 p + PatchMargin |}
      else if bool_decide (length (Text d) < PatchMargin) then
        let extraLength := PatchMargin - length (Text d) in
        {| diffs := take (length (diffs p) - 1) (diffs p)
                      ++ [mkDiff DiffEqual (Text d ++ take extraLength nullPadding)];
           Start1 := Start1 p; Start2 := Start2 p;
           Length1 := Length1 p + extraLength; Length2 := Length2 p + extraLength |}
      else p
  | None =>
      {| diffs := [mkDiff DiffEqual nullPadding];
         Start1 := Start1 p; Start2 := Start2 p;
         Length1 := Length1 p + PatchMargin; Length2 := Length2 p + PatchMargin |}
  end.

Definition mapFirst (f : Patch → Patch) (ps : list Patch) : list Patch :=
  match ps with p :: ps' => f p :: ps' | [] => [] end.

Definition mapLast (f : Patch → Patch) (ps : list Patch) : list Patch :=
  match last ps with
  | Some p => take (length ps - 1) ps ++ [f p]
  | None => []
  end.

(** [PatchAddPadding]: the patches moved forward by the padding and
    given padding context at both ends. *)
Definition PatchAddPadding (ps : list Patch) : list Patch :=
  mapLast padLast (mapFirst padFirst (bump <$> ps)).

Definition distance (a b : nat) : nat := (a - b) + (b - a).

(** The occurrence of [pattern] in [text] nearest to [loc]. *)
Definition MatchBitap (text pattern : list ascii) (loc : nat) : option nat :=
  foldl (λ best pos,
           match best with
           | Some b => if bool_decide (distance pos loc < distance b loc)
                       then Some pos else best
           | None => Some pos
           end)
        None (occurrences text pattern).

(** [MatchMain]: where [pattern] is found in [text] near [loc];
    [None] stands for -1. *)
Definition MatchMain (text pattern : list ascii) (loc : nat) : option nat :=
  let loc := min loc (length text) in
  if bool_decide (text = pattern) then Some 0
  else if bool_decide (text = []) then None
  else if bool_decide (loc + length pattern ≤ length text)
          && bool_decide (slice text loc (loc + length pattern) = pattern)
  then Some loc
  else MatchBitap text pattern loc.

(** The loop of [PatchApply]; [delta] is the offset between expected
    and actual position of the previous patch, kept as a gain and a
    loss. *)
Fixpoint applyLoop (ps : list Patch) (text : list ascii) (deltaUp deltaDown : nat)
    : list ascii * list bool :=
  match ps with
  | [] => (text, [])
  | aPatch :: rest =>
      let expectedLoc := Start2 aPatch + deltaUp - deltaDown in
      let text1 := DiffText1 (diffs aPatch) in
      match MatchMain text text1 expectedLoc with
      | None =>
          let '(t, rs) :=
            applyLoop rest text (deltaUp + Length1 aPatch) (deltaDown + Length2 aPatch) in
          (t, false :: rs)
      | Some startLoc =>
          let text2 := slice text startLoc (min (startLoc + length text1) (length text)) in
          let text' :=
            if bool_decide (text1 = text2)
            then take startLoc text ++ DiffText2 (diffs aPatch)
                   ++ drop (startLoc + length text1) text
            else text in
          let '(t, rs) :=
            applyLoop rest text' (startLoc - expectedLoc) (expectedLoc - startLoc) in
          (t, true :: rs)
      end
  end.

(** Modelled from the spec: [PatchApply] of the package [diffmatchpatch],
    which is not among the sources; it applies the patches to [text] as
    far as their context is found and gives one flag per patch telling
    whether it was applied. There is no failure. *)
Definition PatchApply (ps : list Patch) (text : string) : string * list bool :=
  if bool_decide (ps = []) then (text, [])
  else
    let ps := PatchAddPadding ps in
    let padded := nullPadding ++ runes text ++ nullPadding in
    let '(t, results) := applyLoop ps padded 0 0 in
    (text_of (slice t (length nullPadding)
                (length nullPadding + (length t - 2 * length nullPadding))),
     results).

End diffmatchpatch.

(** Go's [error] values, as far as the program tells them apart; [nil] is
    [None] of [option error]. *)
Inductive error :=
  | ErrNotExist
  | ErrPermission
  | ErrIsDir
  | ErrNotDir
  | ErrOther (msg : string).

(** ** internal/merger *)
Module merger.

(** [ThreeWayMerge] merges the changes from base to client into server.
    It returns the merged text. *)
Definition ThreeWayMerge (base client server : string) : string * option error :=
  (* 1. Calculate patches: how did client change from base? *)
  let patches := diffmatchpatch.PatchMake base client in
  (* 2. Apply patches to server version *)
  let '(merged, _) := diffmatchpatch.PatchApply patches server in
  (merged, None).

End merger.

(** ** internal/protocol *)
Module protocol.

Record SyncRequest := mkSyncRequest {
  Filename : string;
  Base : string;
  Latest : string
}.

Record SyncResponse := mkSyncResponse { Synced : string }.

End protocol.

(** ** net/http *)

Definition StatusOK : nat := 200.
Definition StatusBadRequest : nat := 400.
Definition StatusUnauthorized : nat := 401.
Definition StatusNotFound : nat := 404.
Definition StatusMethodNotAllowed : nat := 405.
Definition StatusInternalServerError : nat := 500.

Definition MethodGet : string := "GET".
Definition MethodPost : string := "POST".

(** A request as the client builds it: method, URL, the [X-Sync-Key]
    header and the body. The only body the client sends is the JSON
    encoding of a [SyncRequest]; it is carried as the value it encodes,
    [None] being the nil body. *)
Record ClientRequest := mkClientRequest {
  reqMethod : string;
  reqURL : string;
  reqKey : string;
  reqBody : option protocol.SyncRequest
}.

(** A request as the handler sees it: method, the [X-Sync-Key] header
    (empty when absent), the [filename] query parameter (empty when
    absent) and the body. *)
Record Request := mkRequest {
  Method : string;
  Header_X_Sync_Key : string;
  Query_filename : string;
  Body : string
}.

Record Response := mkResponse {
  StatusCode : nat;
  ContentType : string;
  RespBody : string
}.

(** [http.Error]: the message, a newline, and the status code. *)
Definition http_Error (msg : string) (code : nat) : Response :=
  {| StatusCode := code;
     ContentType := "text/plain; charset=utf-8";
     RespBody := msg +:+ String "010"%char "" |}.

(** ** The operating system: files and a record of the calls made *)

(** A file-system node: a directory, or a regular file with the read and
    write permission of the running process and its content. *)
Inductive node :=
  | Dir
  | File (readable writable : bool) (content : string).

(** The calls a program makes to the outside. *)
Inductive Event :=
  | EvReadFile (path : string)
  | EvWriteFile (path data : string)
  | EvReadDir (path : string)
  | EvHTTP (req : ClientRequest).

(** The file system maps clean paths to nodes; [trace] records every call,
    oldest first. *)
Record OS := mkOS {
  fs : gmap string node;
  trace : list Event
}.

Record DirEntry := mkDirEntry { Name : string; IsDir : bool }.

Definition os_IsNotExist (err : option error) : bool :=
  match err with Some ErrNotExist => true | _ => false end.

Definition record (e : Event) (o : OS) : OS :=
  {| fs := fs o; trace := trace o ++ [e] |}.

(** [os.ReadFile] *)
Definition os_ReadFile (path : string) (o : OS) : (string * option error) * OS :=
  let o' := record (EvReadFile path) o in
  match fs o !! path with
  | None => (("", Some ErrNotExist), o')
  | Some Dir => (("", Some ErrIsDir), o')
  | Some (File r _ content) =>
      if r then ((content, None), o') else (("", Some ErrPermission), o')
  end.

(** [os.WriteFile] with permission 0644: an existing file keeps its
    permissions and gets the new content when it is writable; a missing
    file is created readable and writable. *)
Definition os_WriteFile (path data : string) (o : OS) : option error * OS :=
  let o' := record (EvWriteFile path data) o in
  match fs o !! path with
  | None => (None, {| fs := <[path := File true true data]> (fs o'); trace := trace o' |})
  | Some Dir => (Some ErrIsDir, o')
  | Some (File r w _) =>
      if w then (None, {| fs := <[path := File r w data]> (fs o'); trace := trace o' |})
      else (Some ErrPermission, o')
  end.

Definition node_IsDir (n : node) : bool :=
  match n with Dir => true | File _ _ _ => false end.

(** The entry of directory [dir] that the node at [path] makes, if it
    lies directly inside [dir]. *)
Definition entryOf (dir : string) (pn : string * node) : option DirEntry :=
  let name := filepath.Base pn.1 in
  if bool_decide (filepath.Join [dir; name] = pn.1 ∧ pn.1 ≠ filepath.Clean dir)
  then Some {| Name := name; IsDir := node_IsDir pn.2 |}
  else None.

Definition entry_le (a b : DirEntry) : Prop := String.le (Name a) (Name b).

#[global] Instance entry_le_dec : RelDecision entry_le.
Proof. intros a b. unfold entry_le. apply _. Defined.

(** [os.ReadDir]: the entries of the directory, sorted by file name. *)
Definition os_ReadDir (dir : string) (o : OS) : (list DirEntry * option error) * OS :=
  let o' := record (EvReadDir dir) o in
  match fs o !! filepath.Clean dir with
  | None => (([], Some ErrNotExist), o')
  | Some (File _ _ _) => (([], Some ErrNotDir), o')
  | Some Dir =>
      ((merge_sort entry_le (omap (entryOf dir) (map_to_list (fs o))), None), o')
  end.

(** ** State passing *)

Definition State (S A : Type) : Type := S → A * S.

#[global] Instance State_ret {S} : MRet (State S) := λ A a st, (a, st).
#[global] Instance State_bind {S} : MBind (State S) :=
  λ A B f m st, let '(a, st') := m st in f a st'.

(** A loop over a list, the body run for its effect. *)
Fixpoint forEach {S A} (body : A → State S unit) (l : list A) : State S unit :=
  match l with
  | [] => mret tt
  | x :: rest => body x ≫= λ _, forEach body rest
  end.

(** ** What the sources leave to other packages *)

(** [utils.CalculateHash] belongs to the package [hsync/internal/utils],
    which is not among the sources; the JSON encoders and decoders are
    those of [encoding/json] for the types they are used at. A decoder
    gives [None] when [Decode] returns an error. The decoded file list is
    given as the entries of the Go map in the order [range] visits them. *)
Class Externals := {
  CalculateHash : string → string;
  json_Decode_SyncRequest : string → option protocol.SyncRequest;
  json_Encode_SyncResponse : protocol.SyncResponse → string;
  json_Decode_SyncResponse : string → option protocol.SyncResponse;
  json_Encode_files : gmap string string → string;
  json_Decode_files : string → option (list (string * string))
}.

(** ** internal/server *)

(** [cmd/server/main.go] holds the same handler with the key and the data
    directory taken from command-line flags instead of the [Server]
    value. *)
Module server.

Record Server := mkServer {
  Addr : string;
  Key : string;
  DataDir : string
}.

Section handler.
Context `{Externals}.

(** The loop of the file list: every regular [.txt] entry that can be
    read is listed with the hash of its content. *)
Fixpoint listFiles (s : Server) (entries : list DirEntry)
    (files : gmap string string) : State OS (gmap string string) :=
  match entries with
  | [] => mret files
  | entry :: rest =>
      if negb (IsDir entry) && strings_HasSuffix (Name entry) ".txt" then
        '(content, err) ← os_ReadFile (filepath.Join [DataDir s; Name entry]);
        match err with
        | Some _ => listFiles s rest files
        | None => listFiles s rest (<[Name entry := CalculateHash content]> files)
        end
      else listFiles s rest files
  end.

(** The handler of [/sync]. The mutex taken after the key check makes
    the calls of the handler run one after the other, which the state
    passing expresses. *)
Definition handleSync (s : Server) (r : Request) : State OS Response :=
  (* Apply Auth *)
  if bool_decide (Header_X_Sync_Key r ≠ Key s) then
    mret (http_Error "Unauthorized" StatusUnauthorized)
  else if bool_decide (Method r = MethodGet) then
    let filename := Query_filename r in
    (* Case 1: Download specific file content *)
    if bool_decide (filename ≠ "") then
      (* Security check *)
      let cleanName := filepath.Base filename in
      if bool_decide (cleanName = ".") || bool_decide (cleanName = "/")
         || negb (strings_HasSuffix cleanName ".txt")
      then mret (http_Error "Invalid Filename" StatusBadRequest)
      else
        let path := filepath.Join [DataDir s; cleanName] in
        '(content, err) ← os_ReadFile path;
        if os_IsNotExist err then mret (http_Error "Not Found" StatusNotFound)
        else
          match err with
          | Some _ =>
              mret (http_Error "Internal Server Error" StatusInternalServerError)
          | None =>
              mret {| StatusCode := StatusOK;
                      ContentType := "text/plain; charset=utf-8";
                      RespBody := content |}
          end
    else
      (* Case 2: List files with hashes *)
      '(entries, err) ← os_ReadDir (DataDir s);
      match err with
      | Some _ => mret (http_Error "Internal Server Error" StatusInternalServerError)
      | None =>
          files ← listFiles s entries ∅;
          mret {| StatusCode := StatusOK;
                  ContentType := "application/json";
                  RespBody := json_Encode_files files |}
      end
  else if bool_decide (Method r = MethodPost) then
    match json_Decode_SyncRequest (Body r) with
    | None => mret (http_Error "Bad Request" StatusBadRequest)
    | Some req =>
        (* Security check: simple sanitize *)
        let filename := filepath.Base (protocol.Filename req) in
        if bool_decide (filename = ".") || bool_decide (filename = "/") then
          mret (http_Error "Invalid Filename" StatusBadRequest)
        (* Enforce .txt extension *)
        else if negb (strings_HasSuffix filename ".txt") then
          mret (http_Error "Only .txt files allowed" StatusBadRequest)
        else
          let serverPath := filepath.Join [DataDir s; filename] in
          '(serverContentBytes, err) ← os_ReadFile serverPath;
          if bool_decide (err ≠ None) && negb (os_IsNotExist err) then
            mret (http_Error "Internal Server Error" StatusInternalServerError)
          else
            let serverContent :=
              if bool_decide (err = None) then serverContentBytes else "" in
            (* Perform 3-way merge *)
            let '(merged, err) := merger.ThreeWayMerge (protocol.Base req) (protocol.Latest req) serverContent in
            match err with
            | Some _ => mret (http_Error "Merge Error" StatusInternalServerError)
            | None =>
                (* Save merged content *)
                err ← os_WriteFile serverPath merged;
                match err with
                | Some _ =>
                    mret (http_Error "Write Error" StatusInternalServerError)
                | None =>
                    mret {| StatusCode := StatusOK;
                            ContentType := "application/json";
                            RespBody := json_Encode_SyncResponse {| protocol.Synced := merged |} |}
                end
            end
    end
  else mret (http_Error "Method Not Allowed" StatusMethodNotAllowed).

End handler.

End server.

(** ** internal/client *)

(** The network as the client sees it: the state of the remote side,
    whether [http.NewRequest] rejects a method and URL, and what
    [client.Do] answers to a request ([None] for a transport error),
    changing the remote state. The body of an answer is received
    whole. *)
Class Net := {
  Remote : Type;
  http_NewRequest_fails : string → string → bool;
  http_Do : ClientRequest → Remote → option Response * Remote
}.

Module client.

(** Config holds the client configuration *)
Record Config := mkConfig {
  ServerURL : string;
  Key : string;
  DirPath : string;
  Interval : string;
  InsecureSkipVerify : bool
}.

Section sync.
Context `{Externals} `{Net}.

(** The state of a running client: its operating system, the package
    variable [baseContents] and the remote side. *)
Record Client := mkClient {
  os : OS;
  baseContents : gmap string string;
  remote : Remote
}.

Definition liftOS {A} (m : State OS A) : State Client A :=
  λ st, let '(a, o) := m (os st) in
        (a, {| os := o; baseContents := baseContents st; remote := remote st |}).

Definition getBase (filename : string) : State Client (option string) :=
  λ st, (baseContents st !! filename, st).

Definition setBase (filename content : string) : State Client unit :=
  λ st, (tt, {| os := os st;
                baseContents := <[filename := content]> (baseContents st);
                remote := remote st |}).

(** [client.Do(req)] *)
Definition Do (req : ClientRequest) : State Client (option Response) :=
  λ st, let '(resp, rem) := http_Do req (remote st) in
        (resp, {| os := record (EvHTTP req) (os st);
                  baseContents := baseContents st; remote := rem |}).

Definition downloadFile (cfg : Config) (filename : string)
    : State Client (string * option error) :=
  let url := ServerURL cfg +:+ "/sync?filename=" +:+ filename in
  if http_NewRequest_fails MethodGet url then mret ("", Some (ErrOther "request"))
  else
    resp ← Do {| reqMethod := MethodGet; reqURL := url;
                 reqKey := Key cfg; reqBody := None |};
    match resp with
    | None => mret ("", Some (ErrOther "transport"))
    | Some resp =>
        if bool_decide (StatusCode resp ≠ StatusOK)
        then mret ("", Some (ErrOther "status"))
        else mret (RespBody resp, None)
    end.

(** The body of the loop of [syncWithServer]. *)
Definition syncWithServer_body (cfg : Config) (entry : string * string)
    : State Client unit :=
  let '(filename, serverHash) := entry in
  lookup ← getBase filename;
  let localBaseContent := default "" lookup in
  let exists_ := bool_decide (is_Some lookup) in
  (* If we don't have it, or our base is outdated *)
  if negb exists_ || bool_decide (CalculateHash localBaseContent ≠ serverHash) then
    '(content, err) ← downloadFile cfg filename;
    match err with
    | Some _ => mret tt
    | None =>
        (* Update base *)
        setBase filename content;;
        (* Update local file IF it was clean (same as old base) *)
        let localPath := filepath.Join [DirPath cfg; filename] in
        '(currentBytes, err) ← liftOS (os_ReadFile localPath);
        if os_IsNotExist err then
          (* File doesn't exist locally, just write it *)
          liftOS (os_WriteFile localPath content);; mret tt
        else if bool_decide (err = None) then
          if exists_ && bool_decide (currentBytes = localBaseContent) then
            (* Local was clean, safe to update *)
            liftOS (os_WriteFile localPath content);; mret tt
          else mret tt
        else mret tt
    end
  else mret tt.

Definition syncWithServer (cfg : Config) : State Client unit :=
  (* 1. Get List of Hashes *)
  let url := ServerURL cfg +:+ "/sync" in
  if http_NewRequest_fails MethodGet url then mret tt
  else
    resp ← Do {| reqMethod := MethodGet; reqURL := url;
                 reqKey := Key cfg; reqBody := None |};
    match resp with
    | None => mret tt
    | Some resp =>
        if bool_decide (StatusCode resp ≠ StatusOK) then mret tt
        else
          match json_Decode_files (RespBody resp) with
          | None => mret tt
          | Some serverFiles =>
              (* 2. Compare and Download if needed *)
              forEach (syncWithServer_body cfg) serverFiles
          end
    end.

Definition syncFile (cfg : Config) (filename base current : string)
    : State Client unit :=
  let reqBody := {| protocol.Filename := filename; protocol.Base := base;
                    protocol.Latest := current |} in
  let jsonBody := Some reqBody in
  let url := ServerURL cfg +:+ "/sync" in
  if http_NewRequest_fails MethodPost url then mret tt
  else
    resp ← Do {| reqMethod := MethodPost; reqURL := url;
                 reqKey := Key cfg; reqBody := jsonBody |};
    match resp with
    | None => mret tt
    | Some resp =>
        if bool_decide (StatusCode resp ≠ StatusOK) then mret tt
        else
          match json_Decode_SyncResponse (RespBody resp) with
          | None => mret tt
          | Some syncResp =>
              (* Update local file and base *)
              if bool_decide (protocol.Synced syncResp ≠ current) then
                let localPath := filepath.Join [DirPath cfg; filename] in
                err ← liftOS (os_WriteFile localPath (protocol.Synced syncResp));
                match err with
                | Some _ => mret tt
                | None => setBase filename (protocol.Synced syncResp)
                end
              else setBase filename (protocol.Synced syncResp)
          end
    end.

(** The body of the loop of [checkAndUpload]. *)
Definition checkAndUpload_body (cfg : Config) (entry : DirEntry)
    : State Client unit :=
  if IsDir entry || negb (strings_HasSuffix (Name entry) ".txt") then mret tt
  else
    let filename := Name entry in
    let localPath := filepath.Join [DirPath cfg; filename] in
    '(currentContent, err) ← liftOS (os_ReadFile localPath);
    match err with
    | Some _ => mret tt
    | None =>
        lookup ← getBase filename;
        (* New file detected: base = "" *)
        let base := default "" lookup in
        if bool_decide (currentContent = base) then mret tt (* No change *)
        else syncFile cfg filename base currentContent
    end.

Definition checkAndUpload (cfg : Config) : State Client unit :=
  '(entries, err) ← liftOS (os_ReadDir (DirPath cfg));
  match err with
  | Some _ => mret tt
  | None => forEach (checkAndUpload_body cfg) entries
  end.

(** One round of the loop of [Run]: pull, then push. *)
Definition tick (cfg : Config) : State Client unit :=
  syncWithServer cfg;; checkAndUpload cfg.

End sync.

End client.

(** ** Sample environments *)

(** Concrete stand-ins for the outside world, used to run the model on
    examples. *)
Module sample.

(** Every request body decodes to [req], every file list to [files],
    every sync answer to [resp]; the hash of a content is the content. *)
Definition externals (req : option protocol.SyncRequest)
    (files : option (list (string * string)))
    (resp : option protocol.SyncResponse) : Externals :=
  {| CalculateHash := λ content, content;
     json_Decode_SyncRequest := λ _, req;
     json_Encode_SyncResponse := protocol.Synced;
     json_Decode_SyncResponse := λ _, resp;
     json_Encode_files := λ files, "{}";
     json_Decode_files := λ _, files |}.

(** A remote side without state that answers each request by
    [answer]. *)
Definition net (answer : ClientRequest → option Response) : Net :=
  {| Remote := unit;
     http_NewRequest_fails := λ _ _, false;
     http_Do := λ req _, (answer req, tt) |}.

Definition ok (body : string) : Response :=
  {| StatusCode := StatusOK; ContentType := "application/json"; RespBody := body |}.

Definition srv : server.Server :=
  {| server.Addr := ":8080"; server.Key := "secret"; server.DataDir := "data" |}.

Definition cfg : client.Config :=
  {| client.ServerURL := "http://localhost:8080"; client.Key := "secret";
     client.DirPath := "notes"; client.Interval := "5s";
     client.InsecureSkipVerify := false |}.

End sample.

(** Environments for the examples of the pull phase, the push phase
    and the handler. *)
Module examples.

Definition listing : list (string * string) := [("note1.txt", "hello there")].

(** The server lists [note1.txt] with the hash of "hello there" and
    serves that content. *)
Definition pullExternals : Externals := sample.externals None (Some listing) None.

Definition pullNet : Net :=
  sample.net (λ req,
    if bool_decide (reqURL req = "http://localhost:8080/sync")
    then Some (sample.ok "{}")
    else Some (sample.ok "hello there")).

Definition localFiles (w : bool) (content : string) : gmap string node :=
  <["notes" := Dir]> (<["notes/note1.txt" := File true w content]> ∅).

(** A client whose file holds "hello world" while its base is "hello". *)
Definition dirtyClient : @client.Client pullNet :=
  @client.mkClient pullNet {| fs := localFiles true "hello world"; trace := [] |}
    (<["note1.txt" := "hello"]> ∅) tt.

(** A client with a file but no base: the file already holds what the
    server would send. *)
Definition untrackedClient : @client.Client pullNet :=
  @client.mkClient pullNet {| fs := localFiles true "hello there"; trace := [] |} ∅ tt.

(** The server answers every reconcile call with [merged]. *)
Definition pushExternals (merged : string) : Externals :=
  sample.externals None None (Some {| protocol.Synced := merged |}).

Definition pushNet : Net := sample.net (λ _, Some (sample.ok "{}")).

(** A client whose file holds [content], with write permission [w],
    and whose base for it is [base]. *)
Definition pushClient (w : bool) (content base : string) : @client.Client pushNet :=
  @client.mkClient pushNet {| fs := localFiles w content; trace := [] |}
    (<["note1.txt" := base]> ∅) tt.

Definition note1 : DirEntry := {| Name := "note1.txt"; IsDir := false |}.

(** The handler decodes every body to [req]. *)
Definition postExternals (req : protocol.SyncRequest) : Externals :=
  sample.externals (Some req) None None.

Definition post (key : string) : Request :=
  {| Method := MethodPost; Header_X_Sync_Key := key; Query_filename := "";
     Body := "{}" |}.

(** A data directory in which [note1.txt] holds [content] with write
    permission [w]. *)
Definition serverOS (w : bool) (content : string) : OS :=
  {| fs := <["data" := Dir]> (<["data/note1.txt" := File true w content]> ∅);
     trace := [] |}.

Definition edit : protocol.SyncRequest :=
  {| protocol.Filename := "note1.txt"; protocol.Base := "hello";
     protocol.Latest := "hello world" |}.

Definition escape : protocol.SyncRequest :=
  {| protocol.Filename := "../etc/passwd"; protocol.Base := "";
     protocol.Latest := "root" |}.

End examples.

(** ** Vocabulary of the properties *)

(** A file name the handler accepts. *)
Definition validName (filename : string) : Prop :=
  filename ≠ "." ∧ filename ≠ "/" ∧ strings_HasSuffix filename ".txt" = true.

(** The content the handler merges with: that of the stored file, the
    empty string when there is none. *)
Definition currentContent (n : option node) : string :=
  match n with Some (File _ _ content) => content | _ => "" end.

(** A call that reads or writes the file at [path]. *)
Definition touches (path : string) (e : Event) : Prop :=
  e = EvReadFile path ∨ ∃ data, e = EvWriteFile path data.

(** A call of [os.WriteFile] on [path]. *)
Definition isWrite (path : string) (e : Event) : Prop :=
  ∃ data, e = EvWriteFile path data.

(** A reconcile call for the document [d]. *)
Definition isReconcile (d : string) (e : Event) : Prop :=
  ∃ req sr, e = EvHTTP req ∧ reqBody req = Some sr ∧ protocol.Filename sr = d.

Section vocabulary.
Context `{Externals} `{Net}.
Import client.

(** Between [st] and [st'] the file at [path] is neither written nor
    changed. *)
Definition keepsFile (path : string) (st st' : Client) : Prop :=
  fs (os st') !! path = fs (os st) !! path
  ∧ ∃ evs, trace (os st') = trace (os st) ++ evs
           ∧ Forall (λ e, ¬ isWrite path e) evs.

(** The names of a file list denote the local path of [d] only through
    the name [d] itself, and no name is listed twice (the list comes from
    a Go map). *)
Definition namesApart (cfg : Config) (d : string) (l : list (string * string)) : Prop :=
  NoDup l.*1
  ∧ ∀ f, f ∈ l.*1 →
         filepath.Join [DirPath cfg; f] = filepath.Join [DirPath cfg; d] → f = d.

(** The document [d], whose file is the node [n], is not clean: [n] is
    not a readable file holding the recorded base. *)
Definition notClean (d : string) (n : node) (st : Client) : Prop :=
  ∀ B w, baseContents st !! d = Some B → n ≠ File true w B.

(** The document [d] is clean: its file is readable and holds the
    recorded base, an absent base counting as the empty string. *)
Definition clean (d path : string) (st : Client) : Prop :=
  ∃ w, fs (os st) !! path = Some (File true w (default "" (baseContents st !! d))).

(** Between [st] and [st'] the document [d] at [path] is left alone:
    same file, same base entry, no write to the file and no reconcile
    call for it. *)
Definition untouched (d path : string) (st st' : Client) : Prop :=
  fs (os st') !! path = fs (os st) !! path
  ∧ baseContents st' !! d = baseContents st !! d
  ∧ ∃ evs, trace (os st') = trace (os st) ++ evs
           ∧ Forall (λ e, ¬ isWrite path e ∧ ¬ isReconcile d e) evs.

(** The request that lists the files of the server. *)
Definition listRequest (cfg : Config) : ClientRequest :=
  {| reqMethod := MethodGet; reqURL := ServerURL cfg +:+ "/sync";
     reqKey := Key cfg; reqBody := None |}.

(** The reconcile call [syncFile] sends for a document. *)
Definition reconcileRequest (cfg : Config) (filename base current : string)
    : ClientRequest :=
  {| reqMethod := MethodPost; reqURL := ServerURL cfg +:+ "/sync";
     reqKey := Key cfg;
     reqBody := Some {| protocol.Filename := filename; protocol.Base := base;
                        protocol.Latest := current |} |}.

(** The server answers the reconcile call for [filename] with status OK
    and the merged content [merged]. *)
Definition answersMerged (cfg : Config) (filename base current merged : string)
    (st : Client) : Prop :=
  http_NewRequest_fails MethodPost (ServerURL cfg +:+ "/sync") = false
  ∧ ∃ resp rem,
      http_Do (reconcileRequest cfg filename base current) (remote st) = (Some resp, rem)
      ∧ StatusCode resp = StatusOK
      ∧ json_Decode_SyncResponse (RespBody resp) = Some {| protocol.Synced := merged |}.

(** The state [st'] has adopted [merged] for the document: the file
    holds it and it is the recorded base. *)
Definition adoptsMerged (filename path merged : string) (st' : Client) : Prop :=
  currentContent (fs (os st') !! path) = merged
  ∧ baseContents st' !! filename = Some merged.

End vocabulary.

(** ** Further vocabulary *)

(** A call that is not a write of a file. *)
Definition notWrite (e : Event) : Prop := ∀ path data, e ≠ EvWriteFile path data.

(** A node that [os.ReadFile] cannot read: a directory or a file without
    read permission. *)
Definition unreadable (n : node) : Prop :=
  n = Dir ∨ ∃ w content, n = File false w content.

Section more_vocabulary.
Context `{Externals}.

(** The file list may carry [name] with hash [h] on the store [o] of the
    server [s]: the name ends in ".txt" and the file of that name in the
    data directory is readable with a content whose hash is [h]. *)
Definition listed (s : server.Server) (o : OS) (name h : string) : Prop :=
  strings_HasSuffix name ".txt" = true
  ∧ ∃ w content,
      fs o !! filepath.Join [server.DataDir s; name] = Some (File true w content)
      ∧ h = CalculateHash content.

(** The answer that carries a merged content. *)
Definition syncedAnswer (merged : string) : Response :=
  {| StatusCode := StatusOK; ContentType := "application/json";
     RespBody := json_Encode_SyncResponse {| protocol.Synced := merged |} |}.

End more_vocabulary.

(** A plain file name: not empty, not "." or "..", without separator. *)
Definition plainName (name : string) : Prop :=
  name ≠ "" ∧ name ≠ "." ∧ name ≠ ".." ∧ filepath.Separator ∉ runes name.

(** Two nodes of the same kind: both directories, or both files with the
    same permissions. *)
Definition sameKind (n n' : node) : Prop :=
  match n, n' with
  | Dir, Dir => True
  | File r w _, File r' w' _ => r = r' ∧ w = w'
  | _, _ => False
  end.

(** Every node of [m] is still there in [m'], with its kind. *)
Definition keepsNodes (m m' : gmap string node) : Prop :=
  ∀ path n, m !! path = Some n → ∃ n', m' !! path = Some n' ∧ sameKind n n'.

(** A GET of the client: no body, the key of the configuration. *)
Definition isGet (key : string) (e : Event) : Prop :=
  ∀ req, e = EvHTTP req →
         reqMethod req = MethodGet ∧ reqBody req = None ∧ reqKey req = key.

Section client_vocabulary.
Context `{Externals} `{Net}.
Import client.

(** The request that fetches one file. *)
Definition fileRequest (cfg : Config) (filename : string) : ClientRequest :=
  {| reqMethod := MethodGet;
     reqURL := ServerURL cfg +:+ "/sync?filename=" +:+ filename;
     reqKey := Key cfg; reqBody := None |}.

(** The server answers the fetch of [filename] with status OK and the
    body [content]. *)
Definition downloads (cfg : Config) (filename content : string) (st : Client) : Prop :=
  http_NewRequest_fails MethodGet (ServerURL cfg +:+ "/sync?filename=" +:+ filename) = false
  ∧ ∃ resp rem,
      http_Do (fileRequest cfg filename) (remote st) = (Some resp, rem)
      ∧ StatusCode resp = StatusOK
      ∧ RespBody resp = content.

(** The base of [filename] is missing, or its hash is not the listed
    hash [h]. *)
Definition outdated (filename h : string) (st : Client) : Prop :=
  baseContents st !! filename = None
  ∨ ∃ B, baseContents st !! filename = Some B ∧ CalculateHash B ≠ h.

(** The client cannot list the files of the server: the request cannot
    be built, the transport fails, the status is not OK, or the body does
    not decode. *)
Definition listingFails (cfg : Config) (st : Client) : Prop :=
  http_NewRequest_fails MethodGet (ServerURL cfg +:+ "/sync") = true
  ∨ ∃ rem, http_Do (listRequest cfg) (remote st) = (None, rem)
           ∨ ∃ resp, http_Do (listRequest cfg) (remote st) = (Some resp, rem)
                     ∧ (StatusCode resp ≠ StatusOK
                        ∨ json_Decode_files (RespBody resp) = None).

(** An upload of the client: a POST to the sync address with the
    configured key, whose body is a reconcile request for a name ending in
    ".txt" with a latest content that differs from its base. *)
Definition isUpload (cfg : Config) (e : Event) : Prop :=
  ∀ req, e = EvHTTP req →
         reqMethod req = MethodPost
         ∧ reqURL req = ServerURL cfg +:+ "/sync"
         ∧ reqKey req = Key cfg
         ∧ ∃ sr, reqBody req = Some sr
                 ∧ strings_HasSuffix (protocol.Filename sr) ".txt" = true
                 ∧ protocol.Latest sr ≠ protocol.Base sr.

(** Every call made between [st] and [st'] satisfies [P]. *)
Definition emits (P : Event → Prop) (st st' : Client) : Prop :=
  ∃ evs, trace (os st') = trace (os st) ++ evs ∧ Forall P evs.

(** The sync rounds of [Run]: the initial pull, then [n] ticks. *)
Fixpoint ticks (cfg : Config) (n : nat) : State Client unit :=
  match n with
  | 0 => mret tt
  | S n' => tick cfg ≫= λ _, ticks cfg n'
  end.

Definition rounds (cfg : Config) (n : nat) : State Client unit :=
  syncWithServer cfg ≫= λ _, ticks cfg n.

End client_vocabulary.

(** ** internal/client: the default directory *)

(** [getDefaultDir], given what [os.UserHomeDir] returns and the value of
    [runtime.GOOS]. *)
Definition getDefaultDir (home : string * option error) (GOOS : string) : string :=
  match home.2 with
  | Some _ => "."
  | None =>
      if bool_decide (GOOS = "darwin") then
        filepath.Join [home.1; "Library"; "Application Support"; "Heynote"; "notes"]
      else if bool_decide (GOOS = "linux") then
        filepath.Join [home.1; ".config"; "Heynote"; "notes"]
      else "."
  end.

(** ** Further example environments *)
Module more_examples.

(** A data directory in which [note1.txt] is the node [n]. *)
Definition store (n : node) : OS :=
  {| fs := <["data" := Dir]> (<["data/note1.txt" := n]> ∅); trace := [] |}.

Definition request (method key filename body : string) : Request :=
  {| Method := method; Header_X_Sync_Key := key; Query_filename := filename;
     Body := body |}.

(** No body decodes; the hash of a content is the content. *)
Definition plainExternals : Externals := sample.externals None None None.

(** The body "second" decodes to a further edit of the same document,
    every other body to [examples.edit]. *)
Definition followUp : protocol.SyncRequest :=
  {| protocol.Filename := "notes/note1.txt"; protocol.Base := "hello world";
     protocol.Latest := "hello world!" |}.

Definition twoExternals : Externals :=
  {| CalculateHash := λ content, content;
     json_Decode_SyncRequest := λ body,
       if bool_decide (body = "second") then Some followUp else Some examples.edit;
     json_Encode_SyncResponse := protocol.Synced;
     json_Decode_SyncResponse := λ _, None;
     json_Encode_files := λ _, "{}";
     json_Decode_files := λ _, None |}.

(** A reconcile request that changes nothing. *)
Definition confirm : protocol.SyncRequest :=
  {| protocol.Filename := "note1.txt"; protocol.Base := "hello";
     protocol.Latest := "hello" |}.

(** A network on which every call fails in the transport. *)
Definition failNet : Net := sample.net (λ _, None).

Definition clientOn (net : Net) (files : gmap string node)
    (bases : gmap string string) (rem : @Remote net) : @client.Client net :=
  @client.mkClient net {| fs := files; trace := [] |} bases rem.

(** A client that has the local directory and nothing else. *)
Definition freshClient : @client.Client examples.pullNet :=
  clientOn examples.pullNet (<["notes" := Dir]> ∅) ∅ tt.

(** A client whose file and base are both "hello". *)
Definition cleanClient : @client.Client examples.pullNet :=
  clientOn examples.pullNet (examples.localFiles true "hello")
    (<["note1.txt" := "hello"]> ∅) tt.

(** A client whose base is what the server lists. *)
Definition currentClient : @client.Client examples.pullNet :=
  clientOn examples.pullNet (examples.localFiles true "hello there")
    (<["note1.txt" := "hello there"]> ∅) tt.

(** A client with a local edit and no connection. *)
Definition offlineClient : @client.Client failNet :=
  clientOn failNet (examples.localFiles true "hello world")
    (<["note1.txt" := "hello"]> ∅) tt.

(** A client without local directory. *)
Definition homelessClient : @client.Client failNet := clientOn failNet ∅ ∅ tt.

Definition subdirectory : DirEntry := {| Name := "archive"; IsDir := true |}.

End more_examples.


(** * Properties *)

Ltac unfold_state := unfold mbind, State_bind, mret, State_ret in *.

(** ** The three-way merge *)

Section merge_facts.
Import diffmatchpatch.

Lemma DiffMain_same (t : list ascii) :
  DiffMain t t = if bool_decide (t = []) then [] else [mkDiff DiffEqual t].
Proof. unfold DiffMain. by rewrite bool_decide_eq_true_2. Qed.

(** A diff made of one equality yields no patch. *)
Lemma patchMake2_equal_only (t u : list ascii) :
  patchMake2 t [mkDiff DiffEqual u] = [].
Proof.
  unfold patchMake2. rewrite bool_decide_eq_false_2 by done.
  cbn [makeLoop]. unfold makeStep. cbn [Type_ Text patch emptyPatch diffs].
  rewrite (bool_decide_eq_true_2 (@nil Diff = [])) by done.
  rewrite (bool_decide_eq_false_2 (DiffEqual ≠ DiffEqual)) by (intros ?; done).
  cbn [andb]. rewrite (bool_decide_eq_false_2 (@nil Diff ≠ [])) by (intros ?; done).
  rewrite !andb_false_r. cbn [andb patches patch diffs].
  by rewrite (bool_decide_eq_false_2 (@nil Diff ≠ [])) by (intros ?; done).
Qed.

(** The edit script from a text to itself is empty. *)
Lemma PatchMake_same (base : string) : PatchMake base base = [].
Proof.
  unfold PatchMake. rewrite DiffMain_same. case_bool_decide.
  - done.
  - apply patchMake2_equal_only.
Qed.

(** The empty edit script leaves the target as it is. *)
Lemma PatchApply_nil (text : string) : PatchApply [] text = (text, []).
Proof. done. Qed.

(** From the empty text, the diff is the insertion of the whole text. *)
Lemma DiffMain_from_empty (t : list ascii) :
  t ≠ [] → DiffMain [] t = [mkDiff DiffInsert t].
Proof.
  intros Ht. unfold DiffMain.
  rewrite bool_decide_eq_false_2 by (intros E; by apply Ht).
  cbn [commonPrefixLength take drop length]. unfold commonSuffixLength.
  change (reverse (@nil ascii)) with (@nil ascii). cbn [commonPrefixLength].
  rewrite !drop_0, !Nat.sub_0_r, firstn_all. cbn.
  by rewrite bool_decide_eq_false_2.
Qed.

Lemma patchMake2_insert_only (t : list ascii) :
  patchMake2 [] [mkDiff DiffInsert t]
  = [mkPatch [mkDiff DiffInsert t] 0 0 0 (length t)].
Proof. reflexivity. Qed.

Lemma PatchAddPadding_insert_only (t : list ascii) :
  PatchAddPadding [mkPatch [mkDiff DiffInsert t] 0 0 0 (length t)]
  = [mkPatch [mkDiff DiffEqual nullPadding; mkDiff DiffInsert t;
              mkDiff DiffEqual nullPadding] 0 0 8 (length t + 4 + 4)].
Proof. reflexivity. Qed.

(** Stripping the padding gives back what lies between. *)
Lemma slice_strip_padding (t : list ascii) :
  let padded := nullPadding ++ t ++ nullPadding in
  slice padded (length nullPadding)
    (length nullPadding + (length padded - 2 * length nullPadding)) = t.
Proof.
  cbn zeta. unfold slice.
  rewrite drop_app_length, !length_app.
  replace (_ - length nullPadding) with (length t) by (cbn; lia).
  by rewrite take_app_length.
Qed.

(** Inserting a whole text into the empty text gives that text. *)
Lemma PatchApply_insert_only (t : list ascii) :
  PatchApply [mkPatch [mkDiff DiffInsert t] 0 0 0 (length t)] ""
  = (text_of t, [true]).
Proof.
  unfold PatchApply. rewrite bool_decide_eq_false_2 by done.
  rewrite PatchAddPadding_insert_only.
  cbn -[nullPadding slice Nat.mul].
  change (MatchMain _ _ 0) with (Some 0). cbv iota beta.
  rewrite bool_decide_eq_true_2 by reflexivity.
  change (take 0 _) with (@nil ascii).
  change (drop _ (nullPadding ++ nullPadding)) with (@nil ascii).
  rewrite !app_nil_r, app_nil_l.
  by rewrite (slice_strip_padding t).
Qed.

Lemma runes_nonempty (s : string) : s ≠ "" → runes s ≠ [].
Proof.
  intros Hs Hr. apply Hs.
  by rewrite <- (string_of_list_ascii_of_string s), Hr.
Qed.

End merge_facts.

(** C5: for every base and every current, [ThreeWayMerge base base current]
    returns [current] unchanged: merging is a no-op when the replica made
    no change. *)
Theorem ThreeWayMerge_no_local_change (base current : string) :
  merger.ThreeWayMerge base base current = (current, None).
Proof.
  unfold merger.ThreeWayMerge. by rewrite PatchMake_same, PatchApply_nil.
Qed.

(** C6: for every latest, [ThreeWayMerge "" latest ""] returns exactly
    [latest]: the first push of a new document reproduces its content. *)
Theorem ThreeWayMerge_first_push (latest : string) :
  merger.ThreeWayMerge "" latest "" = (latest, None).
Proof.
  destruct (decide (latest = "")) as [->|Hne]; [reflexivity|].
  unfold merger.ThreeWayMerge, diffmatchpatch.PatchMake.
  change (runes "") with (@nil ascii).
  rewrite DiffMain_from_empty by (by apply runes_nonempty).
  rewrite patchMake2_insert_only, PatchApply_insert_only.
  by rewrite string_of_list_ascii_of_string.
Qed.

Example merge_appended_text :
  merger.ThreeWayMerge "hello" "hello world" "hello" = ("hello world", None).
Proof. vm_compute. reflexivity. Qed.

Example merge_into_changed_server :
  merger.ThreeWayMerge "the quick brown fox jumps" "the quick red fox jumps"
    "well, the quick brown fox jumps over"
  = ("well, the quick red fox jumps over", None).
Proof. vm_compute. reflexivity. Qed.

(** A patch whose context is not found is skipped without an error. *)
Example merge_skips_unmatched_patch :
  merger.ThreeWayMerge "the quick brown fox jumps" "the quick red fox jumps"
    "nothing in common"
  = ("nothing in common", None).
Proof. vm_compute. reflexivity. Qed.

(** ** The handler *)

Section server_facts.
Context `{Externals}.
Import server.

Ltac enter_post Hkey Hm Hreq :=
  unfold handleSync;
  rewrite bool_decide_eq_false_2 by (intros E; by apply E);
  rewrite Hm; rewrite (bool_decide_eq_false_2 (MethodPost = MethodGet)) by done;
  rewrite bool_decide_eq_true_2 by done; rewrite Hreq.

Ltac solve_touches :=
  repeat (apply Forall_cons; split;
          [ (by left) || (right; eexists; reflexivity) |]);
  by apply Forall_nil.

(** C8: a request of any kind whose key is not the key of the server is
    rejected as unauthorized, without any call on the store: the state,
    its record of calls included, is unchanged. *)
Theorem handleSync_unauthorized_rejected (s : Server) (r : Request) (o : OS) :
  Header_X_Sync_Key r ≠ Key s →
  handleSync s r o = (http_Error "Unauthorized" StatusUnauthorized, o).
Proof.
  intros Hkey. unfold handleSync. by rewrite bool_decide_eq_true_2.
Qed.

(** C2: an authorized POST whose body decodes to a request with a valid
    file name, on a store where the document is absent or a readable and
    writable file, answers with the three-way merge of base and latest
    into the stored content (empty for an absent document) and leaves
    exactly that merge stored under the document's path. *)
Theorem handleSync_post_reconciles (s : Server) (r : Request)
    (req : protocol.SyncRequest) (o : OS) :
  Header_X_Sync_Key r = Key s →
  Method r = MethodPost →
  json_Decode_SyncRequest (Body r) = Some req →
  let filename := filepath.Base (protocol.Filename req) in
  let serverPath := filepath.Join [DataDir s; filename] in
  let merged :=
    (merger.ThreeWayMerge (protocol.Base req) (protocol.Latest req)
       (currentContent (fs o !! serverPath))).1 in
  validName filename →
  (fs o !! serverPath = None
   ∨ ∃ content, fs o !! serverPath = Some (File true true content)) →
  handleSync s r o =
    ({| StatusCode := StatusOK; ContentType := "application/json";
        RespBody := json_Encode_SyncResponse {| protocol.Synced := merged |} |},
     {| fs := <[serverPath := File true true merged]> (fs o);
        trace := trace o ++ [EvReadFile serverPath; EvWriteFile serverPath merged] |}).
Proof.
  intros Hkey Hm Hreq filename serverPath merged (Hdot & Hsl & Htxt) Hnode.
  enter_post Hkey Hm Hreq.
  fold filename. rewrite (bool_decide_eq_false_2 (filename = ".")) by done.
  rewrite (bool_decide_eq_false_2 (filename = "/")) by done.
  rewrite Htxt. cbn [orb negb]. fold serverPath.
  unfold_state. unfold os_ReadFile, os_WriteFile, merger.ThreeWayMerge in *.
  subst merged.
  destruct Hnode as [Hn | [c Hn]]; rewrite Hn; cbn.
  - destruct (diffmatchpatch.PatchApply _ _) as [m rs]; cbn. rewrite Hn. cbn.
    by rewrite <- app_assoc.
  - destruct (diffmatchpatch.PatchApply _ _) as [m rs]; cbn. rewrite Hn. cbn.
    by rewrite <- app_assoc.
Qed.

(** C7: when writing the merged content to the document's path fails,
    the answer to the POST is an internal server error, not the merged
    content, and the stored files are unchanged. *)
Theorem handleSync_write_failure_reported (s : Server) (r : Request)
    (req : protocol.SyncRequest) (o : OS) (e : error) :
  Header_X_Sync_Key r = Key s →
  Method r = MethodPost →
  json_Decode_SyncRequest (Body r) = Some req →
  let filename := filepath.Base (protocol.Filename req) in
  let serverPath := filepath.Join [DataDir s; filename] in
  let merged :=
    (merger.ThreeWayMerge (protocol.Base req) (protocol.Latest req)
       (currentContent (fs o !! serverPath))).1 in
  validName filename →
  (os_WriteFile serverPath merged o).1 = Some e →
  (∃ msg, (handleSync s r o).1 = http_Error msg StatusInternalServerError)
  ∧ fs (handleSync s r o).2 = fs o.
Proof.
  intros Hkey Hm Hreq filename serverPath merged (Hdot & Hsl & Htxt) Hw.
  enter_post Hkey Hm Hreq.
  fold filename. rewrite (bool_decide_eq_false_2 (filename = ".")) by done.
  rewrite (bool_decide_eq_false_2 (filename = "/")) by done.
  rewrite Htxt. cbn [orb negb]. fold serverPath.
  unfold_state. unfold os_ReadFile, os_WriteFile, merger.ThreeWayMerge in *.
  subst merged.
  destruct (fs o !! serverPath) as [[|rd [|] c]|] eqn:Hn; cbn in Hw; try done.
  - cbn. split; [eexists; reflexivity | done].
  - destruct rd; cbn.
    + destruct (diffmatchpatch.PatchApply _ _) as [m rs]; cbn. rewrite Hn. cbn.
      split; [eexists; reflexivity | done].
    + split; [eexists; reflexivity | done].
Qed.

(** C9: an authorized POST whose file name has the base name "." or "/"
    or a base name that does not end in ".txt" is answered with Bad
    Request and the state is unchanged; and whatever the file name, every
    file the handler reads or writes for the POST is the one at the data
    directory joined with the base name of the requested file name. *)
Theorem handleSync_post_filename_guard (s : Server) (r : Request)
    (req : protocol.SyncRequest) (o : OS) :
  Header_X_Sync_Key r = Key s →
  Method r = MethodPost →
  json_Decode_SyncRequest (Body r) = Some req →
  let filename := filepath.Base (protocol.Filename req) in
  let serverPath := filepath.Join [DataDir s; filename] in
  (filename = "." ∨ filename = "/" ∨ strings_HasSuffix filename ".txt" = false →
     StatusCode (handleSync s r o).1 = StatusBadRequest ∧ (handleSync s r o).2 = o)
  ∧ ∃ evs, trace (handleSync s r o).2 = trace o ++ evs ∧ Forall (touches serverPath) evs.
Proof.
  intros Hkey Hm Hreq filename serverPath.
  enter_post Hkey Hm Hreq.
  fold filename.
  destruct (bool_decide (filename = ".") || bool_decide (filename = "/")) eqn:Hbad.
  { split; [done|]. exists []. by rewrite app_nil_r. }
  apply orb_false_iff in Hbad as [Hdot%bool_decide_eq_false Hsl%bool_decide_eq_false].
  destruct (strings_HasSuffix filename ".txt") eqn:Htxt; cbn [negb].
  2:{ split; [done|]. exists []. by rewrite app_nil_r. }
  fold serverPath. split; [intros [?|[?|?]]; done|].
  unfold_state. unfold os_ReadFile, os_WriteFile, merger.ThreeWayMerge.
  destruct (fs o !! serverPath) as [[|rd wr c]|] eqn:Hn; cbn.
  - exists [EvReadFile serverPath]. split; [done|]. solve_touches.
  - destruct rd; cbn.
    + destruct (diffmatchpatch.PatchApply _ _) as [m rs]; cbn. rewrite Hn.
      destruct wr; cbn; rewrite <- app_assoc;
        (eexists; split; [done|]); solve_touches.
    + exists [EvReadFile serverPath]. split; [done|]. solve_touches.
  - destruct (diffmatchpatch.PatchApply _ _) as [m rs]; cbn. rewrite Hn. cbn.
    rewrite <- app_assoc. eexists; split; [done|]. solve_touches.
Qed.

End server_facts.

(** ** The client *)

Section client_facts.
Context `{Externals} `{Net}.
Import client.

Lemma keepsFile_refl path st : keepsFile path st st.
Proof. split; [done|]. exists []. by rewrite app_nil_r. Qed.

Lemma keepsFile_trans path st1 st2 st3 :
  keepsFile path st1 st2 → keepsFile path st2 st3 → keepsFile path st1 st3.
Proof.
  intros [Hf1 (e1 & Ht1 & Hw1)] [Hf2 (e2 & Ht2 & Hw2)]. split; [congruence|].
  exists (e1 ++ e2). rewrite Ht2, Ht1, app_assoc. split; [done|].
  by apply Forall_app.
Qed.

Ltac solve_nowrite :=
  repeat (apply Forall_cons; split;
          [ (intros [? ?]; congruence) |]);
  by apply Forall_nil.

(** One round of the pull loop, for the listed name [f], seen from the
    document [d]: the file of [d] is not written when [f] is another
    document, or when [f] is [d] and [d] is not clean; and the base of
    [d] changes only in the round of [d]. *)
Lemma syncWithServer_body_frame (cfg : Config) (d f h : string) (n : node) (st : Client) :
  let path := filepath.Join [DirPath cfg; d] in
  fs (os st) !! path = Some n →
  (f ≠ d → filepath.Join [DirPath cfg; f] ≠ path) →
  (f = d → notClean d n st) →
  let st' := (syncWithServer_body cfg (f, h) st).2 in
  keepsFile path st st' ∧ (f ≠ d → baseContents st' !! d = baseContents st !! d).
Proof.
  intros path Hn Hother Hself st'. subst st'.
  unfold syncWithServer_body, downloadFile, getBase, setBase, liftOS, Do,
    os_ReadFile, os_WriteFile, keepsFile, notClean in *.
  unfold_state. cbn.
  destruct (decide (f = d)) as [Heq|Hne].
  - subst f. specialize (Hself eq_refl). fold path. rewrite Hn.
    repeat (case_match; simplify_eq/=).
    all: rewrite <- ?app_assoc; cbn [app].
    all: try (split; [split; [done|]|done];
              eexists; split; [reflexivity | solve_nowrite]).
    all: try (split; [split; [done|]|done];
              exists []; split; [by rewrite app_nil_r | by apply Forall_nil]).
    all: exfalso;
      match goal with
      | Hc : _ && _ = true |- _ =>
          apply andb_true_iff in Hc as [[B HB]%bool_decide_eq_true Hc%bool_decide_eq_true];
          rewrite HB in Hc; cbn in Hc; subst; by eapply Hself
      end.
  - specialize (Hother Hne).
    repeat (case_match; simplify_eq/=).
    all: rewrite <- ?app_assoc; cbn [app].
    all: rewrite ?lookup_insert_ne by done.
    all: try (split; [split; [done|]|done];
              eexists; split; [reflexivity | solve_nowrite]).
    all: try (split; [split; [done|]|done];
              exists []; split; [by rewrite app_nil_r | by apply Forall_nil]).
Qed.

(** The pull loop over a file list never writes the file of a document
    that is not clean when its round comes. *)
Lemma pull_loop_frame (cfg : Config) (d : string) (n : node)
    (l : list (string * string)) (st : Client) :
  let path := filepath.Join [DirPath cfg; d] in
  namesApart cfg d l →
  fs (os st) !! path = Some n →
  (d ∈ l.*1 → notClean d n st) →
  keepsFile path st (forEach (syncWithServer_body cfg) l st).2.
Proof.
  intros path. revert st.
  induction l as [|[f h] l IH]; intros st [Hnd Hal] Hn Hd.
  { apply keepsFile_refl. }
  cbn [forEach]. unfold_state.
  destruct (syncWithServer_body cfg (f, h) st) as [[] st1] eqn:E.
  apply NoDup_cons in Hnd as [Hf Hnd]. cbn in Hf.
  destruct (syncWithServer_body_frame cfg d f h n st) as [Hk Hb]; [done| | |].
  { intros Hne Hp. apply Hne, Hal; [left|done]. }
  { intros ->. apply Hd. left. }
  rewrite E in Hk, Hb. cbn in Hk, Hb.
  eapply keepsFile_trans; [exact Hk|].
  apply IH.
  - split; [done|]. intros g Hg. apply Hal. by right.
  - destruct Hk as [Hk _]. etrans; [exact Hk | exact Hn].
  - intros Hin. destruct (decide (f = d)) as [->|Hne]; [done|].
    unfold notClean. rewrite (Hb Hne). apply Hd. by right.
Qed.

(** A pull never writes the file of a document that is not clean, be it
    dirty, without base, or not a readable file. *)
Lemma syncWithServer_frame (cfg : Config) (d : string) (n : node) (st : Client) :
  let path := filepath.Join [DirPath cfg; d] in
  (∀ resp rem l, http_Do (listRequest cfg) (remote st) = (Some resp, rem) →
                 json_Decode_files (RespBody resp) = Some l → namesApart cfg d l) →
  fs (os st) !! path = Some n →
  notClean d n st →
  keepsFile path st (syncWithServer cfg st).2.
Proof.
  intros path Hl Hn Hd. unfold syncWithServer.
  destruct (http_NewRequest_fails _ _); [apply keepsFile_refl|].
  unfold_state. unfold Do. fold (listRequest cfg).
  destruct (http_Do (listRequest cfg) (remote st)) as [[resp|] rem] eqn:Hdo;
    [|by (split; [done|]; exists [EvHTTP (listRequest cfg)]; split; [done|solve_nowrite])].
  set (st1 := {| os := record (EvHTTP (listRequest cfg)) (os st);
                 baseContents := baseContents st; remote := rem |}).
  assert (keepsFile path st st1) as Hk1
    by (split; [done|]; exists [EvHTTP (listRequest cfg)]; split; [done|solve_nowrite]).
  case_bool_decide; [done|].
  destruct (json_Decode_files (RespBody resp)) as [l|] eqn:Hdec; [|done].
  eapply keepsFile_trans; [exact Hk1|].
  apply (pull_loop_frame cfg d n); [by eapply Hl|done|by intros _].
Qed.

(** C10: in a pull, a document without base entry whose file exists and
    is readable keeps its file: no write is made to it, whatever the
    server sends, the same content included. The names of the file list
    received, if any, are distinct and denote the path of the document
    only by its own name. *)
Theorem pull_keeps_untracked_local_file (cfg : Config) (d : string) (w : bool)
    (content : string) (st : Client) :
  let path := filepath.Join [DirPath cfg; d] in
  (∀ resp rem l, http_Do (listRequest cfg) (remote st) = (Some resp, rem) →
                 json_Decode_files (RespBody resp) = Some l → namesApart cfg d l) →
  baseContents st !! d = None →
  fs (os st) !! path = Some (File true w content) →
  keepsFile path st (syncWithServer cfg st).2.
Proof.
  intros path Hl Hb Hn.
  apply (syncWithServer_frame cfg d (File true w content)); [done|done|].
  intros B w' HB. by rewrite Hb in HB.
Qed.

Lemma untouched_refl d path st : untouched d path st st.
Proof. split; [done|]. split; [done|]. exists []. by rewrite app_nil_r. Qed.

Lemma untouched_trans d path st1 st2 st3 :
  untouched d path st1 st2 → untouched d path st2 st3 → untouched d path st1 st3.
Proof.
  intros (Hf1 & Hb1 & e1 & Ht1 & Hw1) (Hf2 & Hb2 & e2 & Ht2 & Hw2).
  split; [congruence|]. split; [congruence|].
  exists (e1 ++ e2). rewrite Ht2, Ht1, app_assoc. split; [done|].
  by apply Forall_app.
Qed.

Ltac solve_quiet :=
  repeat (apply Forall_cons; split;
          [ split; [ intros [? ?]; congruence
                   | intros (? & ? & ? & ? & ?); simplify_eq/=; congruence ] |]);
  by apply Forall_nil.

(** One round of the push loop for another entry leaves the document
    [d] alone. *)
Lemma checkAndUpload_body_other (cfg : Config) (d : string) (e : DirEntry) (st : Client) :
  let path := filepath.Join [DirPath cfg; d] in
  Name e ≠ d →
  filepath.Join [DirPath cfg; Name e] ≠ path →
  untouched d path st (checkAndUpload_body cfg e st).2.
Proof.
  intros path Hne Hp.
  unfold checkAndUpload_body, syncFile, getBase, setBase, liftOS, Do,
    os_ReadFile, os_WriteFile, untouched.
  unfold_state. cbn.
  repeat (case_match; simplify_eq/=).
  all: rewrite <- ?app_assoc; cbn [app].
  all: rewrite ?lookup_insert_ne by done.
  all: try (split; [done|]; split; [done|];
            eexists; split; [reflexivity | solve_quiet]).
  all: try (split; [done|]; split; [done|];
            exists []; split; [by rewrite app_nil_r | by apply Forall_nil]).
Qed.

(** The round of a clean document reads its file and does nothing
    else. *)
Lemma checkAndUpload_body_clean (cfg : Config) (e : DirEntry) (st : Client) :
  let path := filepath.Join [DirPath cfg; Name e] in
  clean (Name e) path st →
  untouched (Name e) path st (checkAndUpload_body cfg e st).2.
Proof.
  intros path [w Hc].
  unfold checkAndUpload_body, getBase, liftOS, os_ReadFile, untouched.
  unfold_state. cbn.
  destruct (IsDir e || negb (strings_HasSuffix (Name e) ".txt")).
  { split; [done|]. split; [done|]. exists []. by rewrite app_nil_r. }
  fold path. rewrite Hc. cbn. rewrite bool_decide_eq_true_2 by done. cbn.
  split; [done|]. split; [done|]. eexists; split; [reflexivity | solve_quiet].
Qed.

Lemma push_loop_clean (cfg : Config) (d : string) (entries : list DirEntry) (st : Client) :
  let path := filepath.Join [DirPath cfg; d] in
  (∀ e, e ∈ entries → Name e ≠ d → filepath.Join [DirPath cfg; Name e] ≠ path) →
  clean d path st →
  untouched d path st (forEach (checkAndUpload_body cfg) entries st).2.
Proof.
  intros path. revert st.
  induction entries as [|e entries IH]; intros st Hal Hc.
  { apply untouched_refl. }
  cbn [forEach]. unfold_state.
  destruct (checkAndUpload_body cfg e st) as [[] st1] eqn:E.
  assert (untouched d path st st1) as Hu.
  { destruct (decide (Name e = d)) as [Heq|Hne].
    - subst d. pose proof (checkAndUpload_body_clean cfg e st Hc) as Hu.
      by rewrite E in Hu.
    - pose proof (checkAndUpload_body_other cfg d e st Hne) as Hu.
      rewrite E in Hu. apply Hu, Hal; [left|done]. }
  eapply untouched_trans; [exact Hu|].
  apply IH.
  - intros g Hg. apply Hal. by right.
  - destruct Hc as [w Hc]. destruct Hu as (Hf & Hb & _). exists w.
    etrans; [exact Hf|]. etrans; [exact Hc|]. by rewrite Hb.
Qed.

(** The name of a directory entry is the last element of its path. *)
Lemma os_ReadDir_names (dir : string) (o : OS) (entries : list DirEntry) :
  (os_ReadDir dir o).1 = (entries, None) →
  ∀ e, e ∈ entries → filepath.Base (filepath.Join [dir; Name e]) = Name e.
Proof.
  unfold os_ReadDir. intros Hr e He.
  destruct (fs o !! filepath.Clean dir) as [[|? ? ?]|]; simplify_eq/=.
  rewrite merge_sort_Permutation in He.
  apply list_elem_of_omap in He as ([p n] & _ & Hentry).
  unfold entryOf in Hentry. case_bool_decide as Hp; simplify_eq/=.
  destruct Hp as [Hp _]. by rewrite Hp.
Qed.

(** C4: in the push phase, a document named [d] in the directory whose
    file is readable and holds the recorded base (the empty string when
    there is no base entry) is left alone: no reconcile call is issued for
    it, its file is neither written nor changed, and its base entry is
    unchanged. *)
Theorem push_skips_unchanged_document (cfg : Config) (d : string) (st : Client) :
  let path := filepath.Join [DirPath cfg; d] in
  filepath.Base path = d →
  clean d path st →
  untouched d path st (checkAndUpload cfg st).2.
Proof.
  intros path Hbase Hc. unfold checkAndUpload, liftOS. unfold_state.
  destruct (os_ReadDir (DirPath cfg) (os st)) as [[entries err] o1] eqn:Hrd.
  assert (fs o1 = fs (os st) ∧ trace o1 = trace (os st) ++ [EvReadDir (DirPath cfg)])
    as [Hfs Htr].
  { unfold os_ReadDir in Hrd.
    destruct (fs (os st) !! filepath.Clean (DirPath cfg)) as [[|? ? ?]|];
      by simplify_eq/=. }
  set (st1 := {| os := o1; baseContents := baseContents st; remote := remote st |}).
  assert (untouched d path st st1) as Hu1.
  { split; [by rewrite <- Hfs|]. split; [done|].
    exists [EvReadDir (DirPath cfg)]. split; [done|]. solve_quiet. }
  destruct err as [err|]; [done|].
  eapply untouched_trans; [exact Hu1|].
  apply push_loop_clean.
  - intros e He Hne Hp. apply Hne.
    erewrite <- (os_ReadDir_names (DirPath cfg) (os st) entries); [|by rewrite Hrd|done].
    fold path in Hp. by rewrite Hp.
  - destruct Hc as [w Hc]. exists w. cbn. by rewrite Hfs.
Qed.

(** C3, as amended: in the push phase, for a readable [.txt] document
    whose content differs from the base and for which the server answers
    the reconcile call with [merged]: when [merged] equals the content the
    file is not written and the base becomes [merged]; when it differs and
    the file can be written, the file is overwritten with [merged] and the
    base becomes [merged]; when it differs and the write fails, neither
    the file nor the base changes. *)
Theorem push_adopts_merged_when_written (cfg : Config) (e : DirEntry) (st : Client)
    (w : bool) (content merged : string) :
  let filename := Name e in
  let path := filepath.Join [DirPath cfg; filename] in
  let base := default "" (baseContents st !! filename) in
  let call := EvHTTP (reconcileRequest cfg filename base content) in
  let st' := (checkAndUpload_body cfg e st).2 in
  IsDir e = false →
  strings_HasSuffix filename ".txt" = true →
  fs (os st) !! path = Some (File true w content) →
  content ≠ base →
  answersMerged cfg filename base content merged st →
  (merged = content →
     fs (os st') = fs (os st)
     ∧ trace (os st') = trace (os st) ++ [EvReadFile path; call]
     ∧ baseContents st' = <[filename := merged]> (baseContents st))
  ∧ (merged ≠ content → w = true →
     fs (os st') = <[path := File true true merged]> (fs (os st))
     ∧ trace (os st') = trace (os st) ++ [EvReadFile path; call; EvWriteFile path merged]
     ∧ baseContents st' = <[filename := merged]> (baseContents st))
  ∧ (merged ≠ content → w = false →
     fs (os st') = fs (os st)
     ∧ baseContents st' = baseContents st).
Proof.
  intros filename path base call st' Hdir Htxt Hn Hdirty (Hnew & resp & rem & Hdo & Hok & Hdec).
  subst st'. unfold checkAndUpload_body. rewrite Hdir. fold filename. rewrite Htxt.
  cbn [orb negb]. unfold_state. unfold liftOS, os_ReadFile, getBase. fold path.
  rewrite Hn. cbn. fold base. rewrite bool_decide_eq_false_2 by done.
  unfold syncFile. rewrite Hnew. unfold_state. unfold Do. cbn.
  unfold reconcileRequest in Hdo. rewrite Hdo. cbn.
  rewrite Hok. rewrite bool_decide_eq_false_2 by (intros E; by apply E).
  rewrite Hdec. cbn.
  case_bool_decide as Hm.
  - unfold liftOS, os_WriteFile, setBase. cbn. fold path. rewrite Hn.
    destruct w; cbn; rewrite <- ?app_assoc; (split; [done|]); split; done.
  - unfold setBase. cbn. rewrite <- app_assoc.
    split; [done|]. split; done.
Qed.

End client_facts.

(** ** The properties on examples *)

Section on_examples.
Import examples.

Lemma handleSync_unauthorized_rejected_witness :
  @server.handleSync (postExternals edit) sample.srv (post "guess") (serverOS true "hello")
  = (http_Error "Unauthorized" StatusUnauthorized, serverOS true "hello").
Proof.
  apply handleSync_unauthorized_rejected. vm_compute. intros E. discriminate E.
Defined.

Lemma edit_validName : validName (filepath.Base (protocol.Filename edit)).
Proof.
  repeat split; vm_compute; try reflexivity; intros E; discriminate E.
Qed.

(** Scenario B of the spec, on the server: the edit of "hello" into
    "hello world" reaches a server that still holds "hello". *)
Lemma handleSync_post_reconciles_witness :
  let answer :=
    @server.handleSync (postExternals edit) sample.srv (post "secret")
      (serverOS true "hello") in
  StatusCode answer.1 = StatusOK
  ∧ RespBody answer.1 = "hello world"
  ∧ fs answer.2 !! "data/note1.txt" = Some (File true true "hello world").
Proof.
  cbv zeta.
  rewrite (@handleSync_post_reconciles (postExternals edit) sample.srv
             (post "secret") edit (serverOS true "hello")).
  - vm_compute. repeat split.
  - reflexivity.
  - reflexivity.
  - reflexivity.
  - apply edit_validName.
  - right. exists "hello". vm_compute. reflexivity.
Defined.

Lemma handleSync_write_failure_reported_witness :
  let answer :=
    @server.handleSync (postExternals edit) sample.srv (post "secret")
      (serverOS false "hello") in
  StatusCode answer.1 = StatusInternalServerError
  ∧ fs answer.2 = fs (serverOS false "hello").
Proof.
  cbv zeta.
  destruct (@handleSync_write_failure_reported (postExternals edit) sample.srv
              (post "secret") edit (serverOS false "hello") ErrPermission)
    as [[msg Hmsg] Hfs].
  - reflexivity.
  - reflexivity.
  - reflexivity.
  - apply edit_validName.
  - vm_compute. reflexivity.
  - split; [by rewrite Hmsg | exact Hfs].
Defined.

Lemma handleSync_post_filename_guard_witness :
  let answer :=
    @server.handleSync (postExternals escape) sample.srv (post "secret")
      (serverOS true "hello") in
  StatusCode answer.1 = StatusBadRequest ∧ answer.2 = serverOS true "hello".
Proof.
  cbv zeta.
  destruct (@handleSync_post_filename_guard (postExternals escape) sample.srv
              (post "secret") escape (serverOS true "hello"))
    as [Hbad _].
  - reflexivity.
  - reflexivity.
  - reflexivity.
  - apply Hbad. right. right. vm_compute. reflexivity.
Defined.

Lemma listing_namesApart : @namesApart sample.cfg "note1.txt" listing.
Proof.
  split.
  - apply NoDup_singleton.
  - intros f Hf _. cbn in Hf. by apply list_elem_of_singleton in Hf.
Qed.

Lemma pull_keeps_untracked_local_file_witness :
  @keepsFile pullNet "notes/note1.txt" untrackedClient
    (@client.syncWithServer pullExternals pullNet sample.cfg untrackedClient).2.
Proof.
  apply (@pull_keeps_untracked_local_file pullExternals pullNet sample.cfg
           "note1.txt" true "hello there" untrackedClient).
  - intros resp rem l _ Hl. cbn in Hl. injection Hl as <-. apply listing_namesApart.
  - vm_compute. reflexivity.
  - vm_compute. reflexivity.
Defined.

Lemma push_skips_unchanged_document_witness :
  @untouched pushNet "note1.txt" "notes/note1.txt" (pushClient true "hello" "hello")
    (@client.checkAndUpload (pushExternals "hello") pushNet sample.cfg
       (pushClient true "hello" "hello")).2.
Proof.
  apply (@push_skips_unchanged_document (pushExternals "hello") pushNet sample.cfg
           "note1.txt" (pushClient true "hello" "hello")).
  - vm_compute. reflexivity.
  - exists true. vm_compute. reflexivity.
Defined.

Lemma answers_brave :
  ∀ w, @answersMerged (pushExternals "hello brave world") pushNet sample.cfg
         "note1.txt" "hello" "hello world" "hello brave world"
         (pushClient w "hello world" "hello").
Proof.
  intros w. split; [reflexivity|]. eexists _, _. repeat split; reflexivity.
Qed.

Lemma push_adopts_merged_when_written_witness :
  @adoptsMerged pushNet "note1.txt" "notes/note1.txt" "hello brave world"
    (@client.checkAndUpload_body (pushExternals "hello brave world") pushNet
       sample.cfg note1 (pushClient true "hello world" "hello")).2.
Proof.
  destruct (@push_adopts_merged_when_written (pushExternals "hello brave world")
              pushNet sample.cfg note1 (pushClient true "hello world" "hello")
              true "hello world" "hello brave world")
    as (_ & Hwritten & _).
  - reflexivity.
  - vm_compute. reflexivity.
  - vm_compute. reflexivity.
  - vm_compute. intros E. discriminate E.
  - apply answers_brave.
  - destruct Hwritten as (Hfs & _ & Hbase).
    + vm_compute. intros E. discriminate E.
    + reflexivity.
    + unfold adoptsMerged. rewrite Hfs, Hbase. split.
      * vm_compute. reflexivity.
      * vm_compute. reflexivity.
Defined.

(** C3 as stated fails: the file of [note1.txt] is readable but not
    writable, it differs from the base, the server answers the reconcile
    call with a merged content that differs from the file; after the round
    the file does not hold the merged content and the base is not the
    merged content. *)
Lemma push_readonly_file_not_adopted :
  let st := pushClient false "hello world" "hello" in
  let st' :=
    (@client.checkAndUpload_body (pushExternals "hello brave world") pushNet
       sample.cfg note1 st).2 in
  (IsDir note1 = false
   ∧ strings_HasSuffix (Name note1) ".txt" = true
   ∧ fs (client.os st) !! "notes/note1.txt" = Some (File true false "hello world")
   ∧ client.baseContents st !! "note1.txt" = Some "hello"
   ∧ @answersMerged (pushExternals "hello brave world") pushNet sample.cfg
       "note1.txt" "hello" "hello world" "hello brave world" st)
  ∧ ¬ (currentContent (fs (client.os st') !! "notes/note1.txt") = "hello brave world")
  ∧ ¬ (client.baseContents st' !! "note1.txt" = Some "hello brave world").
Proof.
  cbv zeta. split; [|split].
  - repeat split; try (vm_compute; reflexivity). apply answers_brave.
  - vm_compute. intros E. discriminate E.
  - vm_compute. intros E. discriminate E.
Qed.

(** C1, the failing input: the file of [note1.txt] holds "hello world"
    while the base is "hello", and the server holds "hello there". The
    pull leaves the file as it is but replaces the base by the fetched
    content. *)
Theorem pull_replaces_base_of_dirty_document :
  let st' := (@client.syncWithServer pullExternals pullNet sample.cfg dirtyClient).2 in
  (fs (client.os dirtyClient) !! "notes/note1.txt" = Some (File true true "hello world")
   ∧ client.baseContents dirtyClient !! "note1.txt" = Some "hello")
  ∧ fs (client.os st') !! "notes/note1.txt" = Some (File true true "hello world")
  ∧ client.baseContents st' !! "note1.txt" = Some "hello there".
Proof. vm_compute. repeat split. Qed.

(** The push that follows that pull sends the fetched content as base,
    not the base the local edit was made from. *)
Example push_after_pull_sends_fetched_base :
  let st' := (@client.tick pullExternals pullNet sample.cfg dirtyClient).2 in
  last (trace (client.os st'))
  = Some (EvHTTP (@reconcileRequest sample.cfg "note1.txt" "hello there" "hello world")).
Proof. vm_compute. reflexivity. Qed.

(** Scenario A of the spec, on the client: a fresh client pulls and gets
    the file and the base. *)
Example fresh_client_pulls :
  let st := @client.mkClient pullNet {| fs := <["notes" := Dir]> ∅; trace := [] |} ∅ tt in
  let st' := (@client.syncWithServer pullExternals pullNet sample.cfg st).2 in
  fs (client.os st') !! "notes/note1.txt" = Some (File true true "hello there")
  ∧ client.baseContents st' !! "note1.txt" = Some "hello there".
Proof. vm_compute. repeat split. Qed.

End on_examples.

(** ** Paths *)

Section path_facts.
Import filepath.

Lemma runes_text_of (l : list ascii) : runes (text_of l) = l.
Proof. apply list_ascii_of_string_of_list_ascii. Qed.

Lemma text_of_runes (s : string) : text_of (runes s) = s.
Proof. apply string_of_list_ascii_of_string. Qed.

Lemma text_of_inj (l1 l2 : list ascii) : text_of l1 = text_of l2 → l1 = l2.
Proof. intros E. by rewrite <- (runes_text_of l1), E, runes_text_of. Qed.

Lemma isSep_true (c : ascii) : isSep c = true ↔ c = Separator.
Proof. unfold isSep. apply bool_decide_eq_true. Qed.

Lemma isSep_false (c : ascii) : isSep c = false ↔ c ≠ Separator.
Proof. unfold isSep. apply bool_decide_eq_false. Qed.

Lemma untilSep_no_sep (r : list ascii) : Separator ∉ untilSep r.
Proof.
  induction r as [|c r IH]; cbn; [by apply not_elem_of_nil|].
  destruct (isSep c) eqn:E; [by apply not_elem_of_nil|].
  apply isSep_false in E. apply not_elem_of_cons. by split.
Qed.

Lemma untilSep_app (x y : list ascii) :
  Separator ∉ x → untilSep (x ++ y) = x ++ untilSep y.
Proof.
  induction x as [|c x IH]; intros Hx; [done|]. cbn.
  apply not_elem_of_cons in Hx as [Hc Hx].
  rewrite (proj2 (isSep_false c)) by done. by rewrite IH.
Qed.

Lemma Base_shape (path : string) :
  Base path ≠ "" ∧ (Base path = "/" ∨ Separator ∉ runes (Base path)).
Proof.
  unfold Base. case_bool_decide; [split; [done|right]|].
  { cbn. intros Hin. apply list_elem_of_singleton in Hin. discriminate Hin. }
  case_bool_decide as Hlast; [split; [done|by left]|].
  split.
  - intros E. apply Hlast. apply text_of_inj. by rewrite E.
  - right. rewrite runes_text_of. rewrite elem_of_reverse. apply untilSep_no_sep.
Qed.

Lemma splitSep_plain (cur n : list ascii) :
  Separator ∉ n → splitSep cur n = [reverse cur ++ n].
Proof.
  revert cur. induction n as [|c n IH]; intros cur Hn; cbn.
  { by rewrite app_nil_r. }
  apply not_elem_of_cons in Hn as [Hc Hn].
  rewrite (proj2 (isSep_false c)) by done.
  rewrite IH by done. by rewrite reverse_cons, <- app_assoc.
Qed.

Lemma splitSep_snoc (cur a n : list ascii) :
  Separator ∉ n → splitSep cur (a ++ Separator :: n) = splitSep cur a ++ [n].
Proof.
  intros Hn. revert cur. induction a as [|c a IH]; intros cur; cbn.
  { rewrite (proj2 (isSep_true Separator)) by done.
    by rewrite (splitSep_plain [] n Hn). }
  destruct (isSep c); by rewrite IH.
Qed.

Lemma cleanElems_nil (rooted : bool) (out : list (list ascii)) :
  cleanElems rooted out [] = reverse out.
Proof. done. Qed.

Lemma cleanElems_snoc (rooted : bool) (out L : list (list ascii)) (n : list ascii) :
  n ≠ [] → n ≠ dot → n ≠ dotdot →
  cleanElems rooted out (L ++ [n]) = cleanElems rooted out L ++ [n].
Proof.
  intros H0 H1 H2. revert out. induction L as [|e L IH]; intros out.
  { cbn [app cleanElems]. rewrite !bool_decide_eq_false_2 by done.
    cbn [orb cleanElems]. by rewrite reverse_cons. }
  cbn [app cleanElems]. repeat case_match; by rewrite IH.
Qed.

Lemma joinSep_snoc (X : list (list ascii)) (n : list ascii) :
  joinSep (X ++ [n]) = match X with [] => n | _ => joinSep X ++ Separator :: n end.
Proof.
  induction X as [|e X IH]; [done|].
  destruct X as [|e' X]; [done|].
  change (joinSep ((e :: e' :: X) ++ [n]))
    with (e ++ Separator :: joinSep ((e' :: X) ++ [n])).
  rewrite IH. change (joinSep (e :: e' :: X)) with (e ++ Separator :: joinSep (e' :: X)).
  by rewrite <- app_assoc.
Qed.

(** The base name of a text that ends in a plain name, alone or after a
    separator. *)
Lemma Base_of_suffix (pre n : list ascii) :
  n ≠ [] → Separator ∉ n →
  (pre = [] ∨ ∃ pre', pre = pre' ++ [Separator]) →
  Base (text_of (pre ++ n)) = text_of n.
Proof.
  intros Hn Hsep Hpre. unfold Base.
  rewrite bool_decide_eq_false_2.
  2:{ intros E. apply (f_equal runes) in E. rewrite runes_text_of in E.
      cbn in E. by destruct pre, n. }
  rewrite runes_text_of, reverse_app.
  assert (Separator ∉ reverse n) as Hrev by (by rewrite elem_of_reverse).
  assert (stripSeps (reverse n ++ reverse pre) = reverse n ++ reverse pre) as ->.
  { destruct (reverse n) as [|c rn] eqn:E.
    - apply (f_equal reverse) in E. rewrite reverse_involutive in E. by subst n.
    - cbn. apply not_elem_of_cons in Hrev as [Hc _].
      by rewrite (proj2 (isSep_false c)). }
  rewrite untilSep_app by done.
  assert (untilSep (reverse pre) = []) as ->.
  { destruct Hpre as [->|[pre' ->]]; [done|].
    rewrite reverse_app. cbn.
    by rewrite (proj2 (isSep_true Separator)). }
  rewrite app_nil_r, reverse_involutive.
  by rewrite bool_decide_eq_false_2.
Qed.

Lemma plainName_runes (name : string) :
  plainName name →
  runes name ≠ [] ∧ runes name ≠ dot ∧ runes name ≠ dotdot
  ∧ Separator ∉ runes name.
Proof.
  intros (H0 & H1 & H2 & H3). repeat split; [| | |done].
  - intros E. apply H0. by rewrite <- (text_of_runes name), E.
  - intros E. apply H1. by rewrite <- (text_of_runes name), E.
  - intros E. apply H2. by rewrite <- (text_of_runes name), E.
Qed.

Lemma Clean_cons (c : ascii) (p : list ascii) :
  Clean (text_of (c :: p)) =
    let body := joinSep (cleanElems (isSep c) [] (splitSep [] (c :: p))) in
    if isSep c then text_of (Separator :: body)
    else if bool_decide (body = []) then "." else text_of body.
Proof. unfold Clean. by rewrite runes_text_of. Qed.

(** The shape of [Join [dir; name]] for a plain name: the name, alone or
    after a prefix that ends in a separator; and it is not the cleaned
    directory. *)
Lemma Join_plain_shape (dir name : string) :
  plainName name →
  (∃ pre, Join [dir; name] = text_of (pre ++ runes name)
          ∧ (pre = [] ∨ ∃ pre', pre = pre' ++ [Separator]))
  ∧ Join [dir; name] ≠ Clean dir.
Proof.
  intros Hp. destruct (plainName_runes name Hp) as (Hn0 & Hn1 & Hn2 & Hsep).
  destruct Hp as (Hne & Hdot & _).
  set (n := runes name) in *.
  assert (∃ c n', n = c :: n' ∧ isSep c = false) as (c0 & n' & Hn & Hc0).
  { destruct n as [|c n'] eqn:E; [done|]. exists c, n'. split; [done|].
    apply isSep_false. apply not_elem_of_cons in Hsep as [Hc _]. by intros ->. }
  unfold Join. rewrite !filter_cons, filter_nil.
  destruct (decide (name ≠ "")) as [_|?]; [|done].
  destruct (decide (dir ≠ "")) as [Hd|Hd].
  - cbn [fmap list_fmap joinSep]. fold n.
    assert (runes dir ≠ []) as Hrd.
    { intros E. apply Hd. by rewrite <- (text_of_runes dir), E. }
    destruct (runes dir) as [|c a] eqn:Ha; [done|].
    rewrite <- (text_of_runes dir) at 1. rewrite Ha.
    change ((c :: a) ++ Separator :: n) with (c :: (a ++ Separator :: n)).
    rewrite !Clean_cons. cbv zeta.
    change (c :: a ++ Separator :: n) with ((c :: a) ++ Separator :: n).
    rewrite (splitSep_snoc [] (c :: a) n Hsep), cleanElems_snoc by done.
    set (E := cleanElems (isSep c) [] (splitSep [] (c :: a))).
    rewrite joinSep_snoc.
    destruct (isSep c) eqn:Hroot.
    + destruct E as [|e E'] eqn:HE.
      * split.
        -- exists [Separator]. split; [done|]. right. by exists [].
        -- intros Eq. apply text_of_inj in Eq. by injection Eq.
      * set (b := joinSep (e :: E')). split.
        -- exists (Separator :: b ++ [Separator]). split.
           ++ f_equal. cbn. by rewrite <- app_assoc.
           ++ right. by exists (Separator :: b).
        -- intros Eq. apply text_of_inj in Eq. injection Eq as Eq.
           apply (f_equal length) in Eq. rewrite length_app in Eq. cbn in Eq. lia.
    + destruct E as [|e E'] eqn:HE.
      * rewrite (bool_decide_eq_false_2 (n = [])) by done. split.
        -- exists []. by split; [|left].
        -- intros Eq. apply Hdot. rewrite <- (text_of_runes name).
           rewrite bool_decide_eq_true_2 in Eq by done. exact Eq.
      * set (b := joinSep (e :: E')).
        rewrite (bool_decide_eq_false_2 (b ++ Separator :: n = []))
          by (by destruct b).
        split.
        -- exists (b ++ [Separator]). split.
           ++ f_equal. by rewrite <- app_assoc.
           ++ right. by exists b.
        -- case_bool_decide as Hb.
           ++ rewrite Hb. intros Eq.
              apply (f_equal runes) in Eq. rewrite runes_text_of in Eq.
              cbn in Eq. discriminate Eq.
           ++ intros Eq. apply text_of_inj in Eq.
              apply (f_equal length) in Eq. rewrite length_app in Eq. cbn in Eq. lia.
  - apply dec_stable in Hd. subst dir.
    cbn [fmap list_fmap joinSep]. fold n.
    rewrite Hn, Clean_cons. cbv zeta. rewrite Hc0, <- Hn.
    rewrite (splitSep_plain [] n Hsep). change (reverse [] ++ n) with n.
    cbn [cleanElems].
    rewrite (bool_decide_eq_false_2 (n = [])), (bool_decide_eq_false_2 (n = dot)),
      (bool_decide_eq_false_2 (n = dotdot)) by done.
    cbn [orb]. change (reverse [n]) with [n]. cbn [joinSep].
    rewrite (bool_decide_eq_false_2 (n = [])) by done.
    split.
    + exists []. by split; [|left].
    + intros Eq. apply Hdot. rewrite <- (text_of_runes name). exact Eq.
Qed.

Lemma Join_plain_last (dir name : string) :
  plainName name → Base (Join [dir; name]) = name.
Proof.
  intros Hp. destruct (Join_plain_shape dir name Hp) as [(pre & -> & Hpre) _].
  destruct (plainName_runes name Hp) as (Hn0 & _ & _ & Hsep).
  rewrite Base_of_suffix by done. apply text_of_runes.
Qed.

(** A base name that passes the check of the handler is a plain name. *)
Lemma validName_plainName (f : string) :
  validName (Base f) → plainName (Base f).
Proof.
  intros (Hdot & Hsl & Htxt). destruct (Base_shape f) as [Hne Hsep].
  split; [done|]. split; [done|]. split.
  - intros E. rewrite E in Htxt. discriminate Htxt.
  - by destruct Hsep.
Qed.

(** [filepath.Clean] never gives the empty path. *)
Lemma Clean_nonempty (path : string) : Clean path ≠ "".
Proof.
  unfold Clean. destruct (runes path) as [|c p]; [done|]. cbv zeta.
  destruct (isSep c); [done|]. case_bool_decide as Hb; [done|].
  intros E. apply Hb. apply text_of_inj. by rewrite E.
Qed.

(** X13: a requested file name that passes the check of the handler
    cannot lead out of the data directory: its base name has no separator,
    the path the handler uses has that base name as its last element, and
    that path is not the data directory itself. *)
Theorem sanitized_name_stays_in_directory (dir f : string) :
  validName (Base f) →
  (Separator ∉ runes (Base f))
  ∧ Base (Join [dir; Base f]) = Base f
  ∧ Join [dir; Base f] ≠ Clean dir.
Proof.
  intros Hv. pose proof (validName_plainName f Hv) as Hp. split; [|split].
  - apply Hp.
  - by apply Join_plain_last.
  - by apply Join_plain_shape.
Qed.

End path_facts.

(** ** More on the handler *)

Section server_more.
Context `{Externals}.
Import server.

Ltac enter_get Hkey Hm :=
  unfold handleSync;
  rewrite bool_decide_eq_false_2 by (intros E; by apply E);
  rewrite Hm; rewrite (bool_decide_eq_true_2 (MethodGet = MethodGet)) by done.

Ltac enter_post' Hkey Hm Hreq :=
  unfold handleSync;
  rewrite bool_decide_eq_false_2 by (intros E; by apply E);
  rewrite Hm; rewrite (bool_decide_eq_false_2 (MethodPost = MethodGet)) by done;
  rewrite bool_decide_eq_true_2 by done; rewrite Hreq.

Ltac pass_guard filename Hv :=
  destruct Hv as (Hdot & Hsl & Htxt);
  rewrite (bool_decide_eq_false_2 (filename = ".")) by done;
  rewrite (bool_decide_eq_false_2 (filename = "/")) by done;
  rewrite Htxt; cbn [orb negb].

Lemma validName_nonempty (f : string) : validName (filepath.Base f) → f ≠ "".
Proof. intros (Hdot & _) ->. by apply Hdot. Qed.

(** X1: an authorized GET that names a file with a valid base name,
    stored readable, is answered with status OK and the content of the
    file; the store is only read. *)
Theorem handleSync_get_serves_file (s : Server) (r : Request) (o : OS)
    (w : bool) (content : string) :
  Header_X_Sync_Key r = Key s →
  Method r = MethodGet →
  let cleanName := filepath.Base (Query_filename r) in
  let path := filepath.Join [DataDir s; cleanName] in
  validName cleanName →
  fs o !! path = Some (File true w content) →
  handleSync s r o =
    ({| StatusCode := StatusOK; ContentType := "text/plain; charset=utf-8";
        RespBody := content |},
     record (EvReadFile path) o).
Proof.
  intros Hkey Hm cleanName path Hv Hn.
  pose proof (validName_nonempty _ Hv) as Hne.
  enter_get Hkey Hm. cbv zeta. rewrite bool_decide_eq_true_2 by done.
  fold cleanName. pass_guard cleanName Hv. fold path.
  unfold_state. unfold os_ReadFile. by rewrite Hn.
Qed.

(** X2: an authorized GET that names a file with a valid base name which
    is not stored is answered with Not Found; nothing is created. *)
Theorem handleSync_get_missing_file (s : Server) (r : Request) (o : OS) :
  Header_X_Sync_Key r = Key s →
  Method r = MethodGet →
  let cleanName := filepath.Base (Query_filename r) in
  let path := filepath.Join [DataDir s; cleanName] in
  validName cleanName →
  fs o !! path = None →
  handleSync s r o = (http_Error "Not Found" StatusNotFound, record (EvReadFile path) o).
Proof.
  intros Hkey Hm cleanName path Hv Hn.
  pose proof (validName_nonempty _ Hv) as Hne.
  enter_get Hkey Hm. cbv zeta. rewrite bool_decide_eq_true_2 by done.
  fold cleanName. pass_guard cleanName Hv. fold path.
  unfold_state. unfold os_ReadFile. by rewrite Hn.
Qed.

(** X3: an authorized GET whose file name is not empty and has the base
    name ".", "/" or one that does not end in ".txt" is answered with Bad
    Request without any call on the store. *)
Theorem handleSync_get_rejects_bad_name (s : Server) (r : Request) (o : OS) :
  Header_X_Sync_Key r = Key s →
  Method r = MethodGet →
  Query_filename r ≠ "" →
  let cleanName := filepath.Base (Query_filename r) in
  (cleanName = "." ∨ cleanName = "/" ∨ strings_HasSuffix cleanName ".txt" = false) →
  handleSync s r o = (http_Error "Invalid Filename" StatusBadRequest, o).
Proof.
  intros Hkey Hm Hne cleanName Hbad.
  enter_get Hkey Hm. cbv zeta. rewrite bool_decide_eq_true_2 by done.
  fold cleanName.
  destruct Hbad as [->| [->|Htxt]]; [done|done|].
  rewrite Htxt. cbn [negb]. by rewrite orb_true_r.
Qed.

(** X4: when the stored node of the named document cannot be read (it is
    a directory, or a file without read permission), an authorized fetch
    and an authorized reconcile are both answered with Internal Server
    Error; the reconcile merges and writes nothing. *)
Theorem handleSync_read_failure (s : Server) (r : Request) (o : OS)
    (f : string) (n : node) :
  Header_X_Sync_Key r = Key s →
  (Method r = MethodGet ∧ Query_filename r = f
   ∨ Method r = MethodPost
     ∧ ∃ req, json_Decode_SyncRequest (Body r) = Some req ∧ protocol.Filename req = f) →
  let path := filepath.Join [DataDir s; filepath.Base f] in
  validName (filepath.Base f) →
  fs o !! path = Some n →
  unreadable n →
  handleSync s r o =
    (http_Error "Internal Server Error" StatusInternalServerError,
     record (EvReadFile path) o).
Proof.
  intros Hkey Hreq path Hv Hn Hun.
  pose proof (validName_nonempty _ Hv) as Hne.
  destruct Hreq as [[Hm <-]|(Hm & req & Hreq & <-)].
  - enter_get Hkey Hm. cbv zeta. rewrite bool_decide_eq_true_2 by done.
    pass_guard (filepath.Base (Query_filename r)) Hv. fold path.
    unfold_state. unfold os_ReadFile. rewrite Hn.
    by destruct Hun as [->|(w & c & ->)].
  - enter_post' Hkey Hm Hreq. cbv zeta.
    pass_guard (filepath.Base (protocol.Filename req)) Hv. fold path.
    unfold_state. unfold os_ReadFile. rewrite Hn.
    by destruct Hun as [->|(w & c & ->)].
Qed.

(** X5: an authorized request that is malformed, by a method other than
    GET and POST or by a POST body that does not decode, is rejected
    (Method Not Allowed, Bad Request) and the state is unchanged. *)
Theorem handleSync_rejects_malformed (s : Server) (r : Request) (o : OS) :
  Header_X_Sync_Key r = Key s →
  (Method r ≠ MethodGet ∧ Method r ≠ MethodPost →
     handleSync s r o = (http_Error "Method Not Allowed" StatusMethodNotAllowed, o))
  ∧ (Method r = MethodPost ∧ json_Decode_SyncRequest (Body r) = None →
     handleSync s r o = (http_Error "Bad Request" StatusBadRequest, o)).
Proof.
  intros Hkey. split.
  - intros [Hg Hp]. unfold handleSync.
    rewrite bool_decide_eq_false_2 by (intros E; by apply E).
    by rewrite !bool_decide_eq_false_2.
  - intros [Hm Hreq]. by enter_post' Hkey Hm Hreq.
Qed.

(** The loop of the file list only reads files, and what it adds to the
    list are readable [.txt] files with the hash of their content. *)
Lemma listFiles_spec (s : Server) (entries : list DirEntry)
    (files : gmap string string) (o : OS) :
  fs (listFiles s entries files o).2 = fs o
  ∧ (∃ evs, trace (listFiles s entries files o).2 = trace o ++ evs
            ∧ Forall notWrite evs)
  ∧ ∀ name h, (listFiles s entries files o).1 !! name = Some h →
              files !! name = Some h ∨ listed s o name h.
Proof.
  revert files o. induction entries as [|entry rest IH]; intros files o.
  { cbn. split; [done|]. split; [|by left]. exists []. by rewrite app_nil_r. }
  cbn [listFiles].
  destruct (negb (IsDir entry) && strings_HasSuffix (Name entry) ".txt") eqn:Hq;
    [|apply IH].
  apply andb_true_iff in Hq as [_ Htxt].
  unfold_state. unfold os_ReadFile.
  set (path := filepath.Join [DataDir s; Name entry]).
  set (o1 := record (EvReadFile path) o).
  assert (∀ files1,
    (∀ name h, files1 !! name = Some h → files !! name = Some h ∨ listed s o name h) →
    fs (listFiles s rest files1 o1).2 = fs o
    ∧ (∃ evs, trace (listFiles s rest files1 o1).2 = trace o ++ evs
              ∧ Forall notWrite evs)
    ∧ ∀ name h, (listFiles s rest files1 o1).1 !! name = Some h →
                files !! name = Some h ∨ listed s o name h) as Hstep.
  { intros files1 Hfiles1.
    destruct (IH files1 o1) as (Hfs & (evs & Htr & Hev) & Hl).
    split; [done|]. split.
    - exists (EvReadFile path :: evs). rewrite Htr. cbn.
      rewrite <- app_assoc. split; [done|].
      apply Forall_cons. split; [by intros ? ?|done].
    - intros name h Hh. destruct (Hl name h Hh) as [Hin|Hlisted]; [by apply Hfiles1|].
      right. exact Hlisted. }
  destruct (fs o !! path) as [[|[|] w content]|] eqn:Hn; cbn.
  - apply Hstep. by left.
  - apply Hstep. intros name h Hh.
    destruct (decide (Name entry = name)) as [<-|Hne].
    + rewrite lookup_insert_eq in Hh. injection Hh as <-. right.
      split; [done|]. by exists w, content.
    + rewrite lookup_insert_ne in Hh by done. by left.
  - apply Hstep. by left.
  - apply Hstep. by left.
Qed.

(** X6: an authorized GET without file name, on a data directory that
    exists, is answered with status OK and the encoding of a file list in
    which every name ends in ".txt" and is that of a readable file of the
    data directory, listed with the hash of its content. *)
Theorem handleSync_list_sound (s : Server) (r : Request) (o : OS) :
  Header_X_Sync_Key r = Key s →
  Method r = MethodGet →
  Query_filename r = "" →
  fs o !! filepath.Clean (DataDir s) = Some Dir →
  ∃ files,
    (handleSync s r o).1 =
      {| StatusCode := StatusOK; ContentType := "application/json";
         RespBody := json_Encode_files files |}
    ∧ ∀ name h, files !! name = Some h → listed s o name h.
Proof.
  intros Hkey Hm Hq Hdir.
  enter_get Hkey Hm. cbv zeta. rewrite Hq.
  rewrite (bool_decide_eq_false_2 ("" ≠ "")) by (intros E; by apply E).
  unfold_state. unfold os_ReadDir. rewrite Hdir.
  set (entries := merge_sort _ _).
  set (o1 := record _ o).
  destruct (listFiles_spec s entries ∅ o1) as (_ & _ & Hl).
  destruct (listFiles s entries ∅ o1) as [files o2] eqn:E. cbn in *.
  exists files. split; [done|].
  intros name h Hh. destruct (Hl name h Hh) as [Hin|Hlisted]; [done|].
  exact Hlisted.
Qed.

Lemma handleSync_get_quiet (s : Server) (r : Request) (o : OS) :
  Method r = MethodGet →
  fs (handleSync s r o).2 = fs o
  ∧ ∃ evs, trace (handleSync s r o).2 = trace o ++ evs ∧ Forall notWrite evs.
Proof.
  intros Hm. unfold handleSync.
  assert (∀ o, fs o = fs o ∧ ∃ evs, trace o = trace o ++ evs ∧ Forall notWrite evs) as Hrefl.
  { intros o'. split; [done|]. exists []. by rewrite app_nil_r. }
  case_bool_decide; [apply Hrefl|].
  rewrite Hm. rewrite (bool_decide_eq_true_2 (MethodGet = MethodGet)) by done.
  cbv zeta. case_bool_decide.
  - destruct (_ || _); [apply Hrefl|].
    unfold_state. unfold os_ReadFile.
    assert (Forall notWrite
              [EvReadFile (filepath.Join [DataDir s; filepath.Base (Query_filename r)])])
      as Hev by (apply Forall_cons; split; [by intros ? ?|by apply Forall_nil]).
    destruct (fs o !! _) as [[|[|] w content]|]; cbn;
      (split; [done|]); eexists; (split; [reflexivity|exact Hev]).
  - unfold_state. unfold os_ReadDir.
    assert (Forall notWrite [EvReadDir (DataDir s)])
      as Hev by (apply Forall_cons; split; [by intros ? ?|by apply Forall_nil]).
    destruct (fs o !! filepath.Clean (DataDir s)) as [[|? ? ?]|]; cbn;
      try ((split; [done|]); eexists; (split; [reflexivity|exact Hev])).
    set (entries := merge_sort _ _).
    set (o1 := record _ o).
    destruct (listFiles_spec s entries ∅ o1) as (Hfs & (evs & Htr & Hevs) & _).
    destruct (listFiles s entries ∅ o1) as [files o2] eqn:E. cbn in *.
    split; [done|]. exists (EvReadDir (DataDir s) :: evs).
    rewrite Htr. cbn. rewrite <- app_assoc. split; [done|].
    apply Forall_cons. split; [by intros ? ?|done].
Qed.

(** X8: no GET changes the stored files, whatever the key, the file name
    and the state of the store; it makes no write call. *)
Theorem handleSync_get_reads_only (s : Server) (r : Request) (o : OS) :
  Method r = MethodGet →
  fs (handleSync s r o).2 = fs o
  ∧ ∃ evs, trace (handleSync s r o).2 = trace o ++ evs ∧ Forall notWrite evs.
Proof. apply handleSync_get_quiet. Qed.

(** X9: whatever the request, the handler leaves the stored files as
    they are or replaces the one file named by an authorized POST, at the
    data directory joined with the base name of the requested name, by a
    regular file; it never deletes a file and never touches another
    document. *)
Theorem handleSync_changes_only_named_file (s : Server) (r : Request) (o : OS) :
  fs (handleSync s r o).2 = fs o
  ∨ ∃ req rd wr merged,
      Header_X_Sync_Key r = Key s
      ∧ Method r = MethodPost
      ∧ json_Decode_SyncRequest (Body r) = Some req
      ∧ fs (handleSync s r o).2
        = <[filepath.Join [DataDir s; filepath.Base (protocol.Filename req)]
              := File rd wr merged]> (fs o).
Proof.
  destruct (decide (Method r = MethodGet)) as [Hg|Hg].
  { left. by apply handleSync_get_quiet. }
  unfold handleSync.
  case_bool_decide as Hkey; [by left|].
  rewrite (bool_decide_eq_false_2 (Method r = MethodGet)) by done.
  case_bool_decide as Hp; [|by left].
  destruct (json_Decode_SyncRequest (Body r)) as [req|] eqn:Hreq; [|by left].
  cbv zeta.
  destruct (_ || _); [by left|].
  destruct (negb _); [by left|].
  unfold_state. unfold os_ReadFile, os_WriteFile, merger.ThreeWayMerge.
  destruct (fs o !! _) as [[|[|] [|] content]|] eqn:Hn; cbn; try (by left).
  - destruct (diffmatchpatch.PatchApply _ _) as [m rs]; cbn. rewrite Hn. cbn.
    right. by exists req, true, true, m.
  - destruct (diffmatchpatch.PatchApply _ _) as [m rs]; cbn. rewrite Hn. cbn.
    by left.
  - destruct (diffmatchpatch.PatchApply _ _) as [m rs]; cbn. rewrite Hn. cbn.
    right. by exists req, true, true, m.
Qed.

(** [os.ReadDir] lists every node that lies in the directory under a
    plain name. *)
Lemma os_ReadDir_lists (dir name : string) (n : node) (o : OS) :
  fs o !! filepath.Clean dir = Some Dir →
  plainName name →
  fs o !! filepath.Join [dir; name] = Some n →
  (os_ReadDir dir o).1.2 = None
  ∧ {| Name := name; IsDir := node_IsDir n |} ∈ (os_ReadDir dir o).1.1.
Proof.
  intros Hdir Hp Hn. unfold os_ReadDir. rewrite Hdir. cbn. split; [done|].
  rewrite merge_sort_Permutation. apply list_elem_of_omap.
  exists (filepath.Join [dir; name], n). split.
  - by apply elem_of_map_to_list.
  - unfold entryOf. cbn. rewrite (Join_plain_last dir name Hp).
    rewrite bool_decide_eq_true_2; [done|]. split; [done|].
    by apply Join_plain_shape.
Qed.

(** The loop of the file list lists a readable [.txt] file as soon as
    one of the entries names it. *)
Lemma listFiles_complete (s : Server) (entries : list DirEntry)
    (files : gmap string string) (o : OS) (name content : string) (w : bool) :
  fs o !! filepath.Join [DataDir s; name] = Some (File true w content) →
  strings_HasSuffix name ".txt" = true →
  ((∃ e, e ∈ entries ∧ Name e = name ∧ IsDir e = false)
   ∨ files !! name = Some (CalculateHash content)) →
  (listFiles s entries files o).1 !! name = Some (CalculateHash content).
Proof.
  intros Hn Htxt. revert files o Hn.
  induction entries as [|entry rest IH]; intros files o Hn Hin.
  { destruct Hin as [(e & He & _)|Hin]; [|done]. by apply elem_of_nil in He. }
  cbn [listFiles].
  destruct (negb (IsDir entry) && strings_HasSuffix (Name entry) ".txt") eqn:Hq.
  - unfold_state. unfold os_ReadFile.
    set (o1 := record _ o).
    destruct (decide (Name entry = name)) as [Heq|Hne].
    + rewrite Heq, Hn. cbn. apply IH; [done|]. right. by rewrite lookup_insert_eq.
    + assert ((∃ e, e ∈ rest ∧ Name e = name ∧ IsDir e = false)
              ∨ files !! name = Some (CalculateHash content)) as Hin'.
      { destruct Hin as [(e & He & Hname & Hd)|Hin]; [|by right].
        apply elem_of_cons in He as [->|He]; [done|]. left. by exists e. }
      destruct (fs o !! filepath.Join [DataDir s; Name entry]) as [[|[|] w' c']|];
        cbn; apply IH; try done.
      destruct Hin' as [?|Hf]; [by left|right]. by rewrite lookup_insert_ne.
  - apply IH; [done|].
    destruct Hin as [(e & He & Hname & Hd)|Hin]; [|by right].
    apply elem_of_cons in He as [->|He]; [|left; by exists e].
    rewrite Hd, Hname, Htxt in Hq. discriminate Hq.
Qed.

(** X7: the file list is complete: on a data directory that exists, an
    authorized GET without file name lists every readable regular file of
    the directory whose plain name ends in ".txt", with the hash of its
    content. *)
Theorem handleSync_list_complete (s : Server) (r : Request) (o : OS)
    (name content : string) (w : bool) :
  Header_X_Sync_Key r = Key s →
  Method r = MethodGet →
  Query_filename r = "" →
  fs o !! filepath.Clean (DataDir s) = Some Dir →
  plainName name →
  strings_HasSuffix name ".txt" = true →
  fs o !! filepath.Join [DataDir s; name] = Some (File true w content) →
  ∃ files,
    (handleSync s r o).1 =
      {| StatusCode := StatusOK; ContentType := "application/json";
         RespBody := json_Encode_files files |}
    ∧ files !! name = Some (CalculateHash content).
Proof.
  intros Hkey Hm Hq Hdir Hp Htxt Hn.
  destruct (os_ReadDir_lists (DataDir s) name _ o Hdir Hp Hn) as [Herr Hin].
  enter_get Hkey Hm. cbv zeta. rewrite Hq.
  rewrite (bool_decide_eq_false_2 ("" ≠ "")) by (intros E; by apply E).
  unfold_state.
  destruct (os_ReadDir (DataDir s) o) as [[entries err] o1] eqn:Hrd.
  cbn in Herr, Hin. subst err.
  assert (fs o1 = fs o) as Hfs.
  { unfold os_ReadDir in Hrd. rewrite Hdir in Hrd. by simplify_eq/=. }
  pose proof (listFiles_complete s entries ∅ o1 name content w) as Hc.
  destruct (listFiles s entries ∅ o1) as [files o2] eqn:E. cbn in *.
  exists files. split; [done|]. apply Hc; [by rewrite Hfs|done|].
  left. by eexists.
Qed.

(** A reconcile that goes through: the answer and the next state. *)
Lemma handleSync_post_run (s : Server) (r : Request)
    (req : protocol.SyncRequest) (o : OS) :
  Header_X_Sync_Key r = Key s →
  Method r = MethodPost →
  json_Decode_SyncRequest (Body r) = Some req →
  let path := filepath.Join [DataDir s; filepath.Base (protocol.Filename req)] in
  let merged :=
    (merger.ThreeWayMerge (protocol.Base req) (protocol.Latest req)
       (currentContent (fs o !! path))).1 in
  validName (filepath.Base (protocol.Filename req)) →
  (fs o !! path = None ∨ ∃ content, fs o !! path = Some (File true true content)) →
  handleSync s r o =
    (syncedAnswer merged,
     {| fs := <[path := File true true merged]> (fs o);
        trace := trace o ++ [EvReadFile path; EvWriteFile path merged] |}).
Proof.
  intros Hkey Hm Hreq path merged Hv Hnode.
  enter_post' Hkey Hm Hreq. cbv zeta.
  pass_guard (filepath.Base (protocol.Filename req)) Hv. fold path.
  unfold_state. unfold os_ReadFile, os_WriteFile, merger.ThreeWayMerge in *.
  subst merged. unfold syncedAnswer.
  destruct Hnode as [Hn | [c Hn]]; rewrite Hn; cbn;
    destruct (diffmatchpatch.PatchApply _ _) as [m rs]; cbn; rewrite Hn; cbn;
    by rewrite <- app_assoc.
Qed.

(** X10: after a reconcile that goes through, an authorized fetch of the
    same document is answered with the merged content the reconcile
    returned. *)
Theorem handleSync_post_then_get (s : Server) (r g : Request)
    (req : protocol.SyncRequest) (o : OS) :
  Header_X_Sync_Key r = Key s →
  Method r = MethodPost →
  json_Decode_SyncRequest (Body r) = Some req →
  let name := filepath.Base (protocol.Filename req) in
  let path := filepath.Join [DataDir s; name] in
  validName name →
  (fs o !! path = None ∨ ∃ content, fs o !! path = Some (File true true content)) →
  Header_X_Sync_Key g = Key s →
  Method g = MethodGet →
  filepath.Base (Query_filename g) = name →
  ∃ merged,
    (handleSync s r o).1 = syncedAnswer merged
    ∧ (handleSync s g (handleSync s r o).2).1 =
        {| StatusCode := StatusOK; ContentType := "text/plain; charset=utf-8";
           RespBody := merged |}.
Proof.
  intros Hkey Hm Hreq name path Hv Hnode Hgkey Hgm Hgname.
  rewrite (handleSync_post_run s r req o Hkey Hm Hreq Hv Hnode).
  eexists. split; [reflexivity|]. cbn [fst snd].
  assert (Query_filename g ≠ "") as Hne.
  { apply validName_nonempty. by rewrite Hgname. }
  enter_get Hgkey Hgm. cbv zeta. rewrite bool_decide_eq_true_2 by done.
  rewrite Hgname. pass_guard name Hv. fold path.
  unfold_state. unfold os_ReadFile. cbn. by rewrite lookup_insert_eq.
Qed.

(** X11: a reconcile whose base equals its latest changes no content:
    the answer carries the stored content, and a stored document is left
    as it is. For a document that is not stored, the answer carries the
    empty string and the document is created empty. *)
Theorem handleSync_post_without_change (s : Server) (r : Request)
    (req : protocol.SyncRequest) (o : OS) :
  Header_X_Sync_Key r = Key s →
  Method r = MethodPost →
  json_Decode_SyncRequest (Body r) = Some req →
  let path := filepath.Join [DataDir s; filepath.Base (protocol.Filename req)] in
  validName (filepath.Base (protocol.Filename req)) →
  protocol.Base req = protocol.Latest req →
  (∀ content, fs o !! path = Some (File true true content) →
     (handleSync s r o).1 = syncedAnswer content
     ∧ fs (handleSync s r o).2 = fs o)
  ∧ (fs o !! path = None →
     (handleSync s r o).1 = syncedAnswer ""
     ∧ fs (handleSync s r o).2 = <[path := File true true ""]> (fs o)).
Proof.
  intros Hkey Hm Hreq path Hv Hsame. split.
  - intros content Hn.
    rewrite (handleSync_post_run s r req o Hkey Hm Hreq Hv) by (right; by exists content).
    cbn [fst snd fs]. fold path. rewrite Hn, Hsame. cbn [currentContent].
    unfold merger.ThreeWayMerge. rewrite PatchMake_same, PatchApply_nil. cbn.
    split; [done|]. by apply insert_id.
  - intros Hn.
    rewrite (handleSync_post_run s r req o Hkey Hm Hreq Hv) by (by left).
    cbn [fst snd fs]. fold path. rewrite Hn, Hsame. cbn [currentContent].
    unfold merger.ThreeWayMerge. by rewrite PatchMake_same, PatchApply_nil.
Qed.

(** X12: reconciles of one document take effect in the order they are
    handled: the second is merged into the result of the first, and that
    second merge is what stays stored. *)
Theorem handleSync_posts_in_order (s : Server) (r1 r2 : Request)
    (req1 req2 : protocol.SyncRequest) (o : OS) :
  Header_X_Sync_Key r1 = Key s → Method r1 = MethodPost →
  json_Decode_SyncRequest (Body r1) = Some req1 →
  Header_X_Sync_Key r2 = Key s → Method r2 = MethodPost →
  json_Decode_SyncRequest (Body r2) = Some req2 →
  let name := filepath.Base (protocol.Filename req1) in
  let path := filepath.Join [DataDir s; name] in
  filepath.Base (protocol.Filename req2) = name →
  validName name →
  (fs o !! path = None ∨ ∃ content, fs o !! path = Some (File true true content)) →
  ∃ merged1,
    (handleSync s r1 o).1 = syncedAnswer merged1
    ∧ let merged2 :=
        (merger.ThreeWayMerge (protocol.Base req2) (protocol.Latest req2) merged1).1 in
      (handleSync s r2 (handleSync s r1 o).2).1 = syncedAnswer merged2
      ∧ fs (handleSync s r2 (handleSync s r1 o).2).2 !! path
        = Some (File true true merged2).
Proof.
  intros Hk1 Hm1 Hreq1 Hk2 Hm2 Hreq2 name path Hname Hv Hnode.
  rewrite (handleSync_post_run s r1 req1 o Hk1 Hm1 Hreq1 Hv Hnode).
  eexists. split; [reflexivity|]. cbn [fst snd].
  set (merged1 := (merger.ThreeWayMerge _ _ _).1).
  set (o1 := {| fs := _; trace := _ |}).
  assert (fs o1 !! filepath.Join [DataDir s; filepath.Base (protocol.Filename req2)]
          = Some (File true true merged1)) as Hn1.
  { rewrite Hname. subst o1. cbn. fold path. by rewrite lookup_insert_eq. }
  assert (validName (filepath.Base (protocol.Filename req2))) as Hv2
    by (by rewrite Hname).
  rewrite (handleSync_post_run s r2 req2 o1 Hk2 Hm2 Hreq2 Hv2)
    by (right; by exists merged1).
  cbn [fst snd fs]. rewrite Hn1. cbn [currentContent]. rewrite Hname. fold path.
  split; [done|]. by rewrite lookup_insert_eq.
Qed.

End server_more.

(** ** More on the client *)

Section client_more.
Context `{Externals} `{Net}.
Import client.

Ltac run_download Hdl :=
  let Hnew := fresh "Hnew" in
  let resp := fresh "resp" in
  let rem := fresh "rem" in
  let Hdo := fresh "Hdo" in
  let Hok := fresh "Hok" in
  let Hbody := fresh "Hbody" in
  destruct Hdl as (Hnew & resp & rem & Hdo & Hok & Hbody);
  unfold downloadFile; rewrite Hnew; unfold_state; unfold Do;
  unfold fileRequest in Hdo; rewrite Hdo;
  rewrite Hok; rewrite (bool_decide_eq_false_2 (StatusOK ≠ StatusOK)) by (intros E; by apply E);
  rewrite Hbody; cbn.

Lemma outdated_test (f h : string) (st : Client) :
  outdated f h st →
  negb (bool_decide (is_Some (baseContents st !! f)))
  || bool_decide (CalculateHash (default "" (baseContents st !! f)) ≠ h) = true.
Proof.
  intros [Hb|(B & Hb & Hh)]; rewrite Hb; cbn; [done|].
  by rewrite (bool_decide_eq_true_2 (CalculateHash B ≠ h)).
Qed.

(** X14: in a pull, a listed document whose base is missing or outdated
    and that has no local file is downloaded: the file is created with the
    fetched content and the base is set to it. *)
Theorem pull_creates_missing_file (cfg : Config) (f h content : string) (st : Client) :
  let path := filepath.Join [DirPath cfg; f] in
  let st' := (syncWithServer_body cfg (f, h) st).2 in
  outdated f h st →
  downloads cfg f content st →
  fs (os st) !! path = None →
  fs (os st') = <[path := File true true content]> (fs (os st))
  ∧ baseContents st' = <[f := content]> (baseContents st).
Proof.
  intros path st' Hout Hdl Hn. subst st'.
  unfold syncWithServer_body. unfold_state. unfold getBase.
  rewrite (outdated_test f h st Hout).
  run_download Hdl.
  unfold setBase, liftOS, os_ReadFile, os_WriteFile. cbn. fold path.
  rewrite Hn. cbn. fold path. by rewrite Hn.
Qed.

(** X15: in a pull, a listed document whose base is outdated and whose
    file is readable, writable and equal to the base is fast-forwarded:
    the file is overwritten with the fetched content and the base is set
    to it. *)
Theorem pull_fast_forwards_clean_file (cfg : Config) (f h B content : string)
    (st : Client) :
  let path := filepath.Join [DirPath cfg; f] in
  let st' := (syncWithServer_body cfg (f, h) st).2 in
  baseContents st !! f = Some B →
  CalculateHash B ≠ h →
  downloads cfg f content st →
  fs (os st) !! path = Some (File true true B) →
  fs (os st') = <[path := File true true content]> (fs (os st))
  ∧ baseContents st' = <[f := content]> (baseContents st).
Proof.
  intros path st' Hb Hh Hdl Hn. subst st'.
  unfold syncWithServer_body. unfold_state. unfold getBase.
  rewrite (outdated_test f h st) by (right; by exists B).
  run_download Hdl.
  unfold setBase, liftOS, os_ReadFile, os_WriteFile. cbn. fold path.
  rewrite Hn, Hb. cbn.
  rewrite bool_decide_eq_true_2 by done. cbn. fold path. by rewrite Hn.
Qed.

(** X16: in a pull, a listed document whose base has the listed hash is
    left alone: nothing is fetched and the state does not change. *)
Theorem pull_skips_current_document (cfg : Config) (f h B : string) (st : Client) :
  baseContents st !! f = Some B →
  CalculateHash B = h →
  syncWithServer_body cfg (f, h) st = (tt, st).
Proof.
  intros Hb Hh. unfold syncWithServer_body. unfold_state. unfold getBase.
  rewrite Hb. cbn.
  by rewrite bool_decide_eq_false_2 by (intros E; by apply E).
Qed.

(** X17: in a pull, when the download of a listed document fails, its
    round changes no file and no base. *)
Theorem pull_failed_download_changes_nothing (cfg : Config) (f h : string)
    (e : error) (st : Client) :
  let st' := (syncWithServer_body cfg (f, h) st).2 in
  (downloadFile cfg f st).1.2 = Some e →
  fs (os st') = fs (os st) ∧ baseContents st' = baseContents st.
Proof.
  intros st' Hfail. subst st'.
  unfold syncWithServer_body. unfold_state. unfold getBase.
  destruct (_ || _); [|done].
  destruct (downloadFile cfg f st) as [[content err] st1] eqn:E.
  cbn in Hfail. subst err.
  revert E. unfold downloadFile. unfold_state. unfold Do.
  repeat (case_match; simplify_eq/=); intros E; by simplify_eq/=.
Qed.

(** X18: when the client cannot list the files of the server, the pull
    changes no file and no base. *)
Theorem pull_failed_listing_changes_nothing (cfg : Config) (st : Client) :
  let st' := (syncWithServer cfg st).2 in
  listingFails cfg st →
  fs (os st') = fs (os st) ∧ baseContents st' = baseContents st.
Proof.
  intros st' Hfail. subst st'. unfold syncWithServer.
  destruct Hfail as [Hnew|(rem & Hfail)]; [by rewrite Hnew|].
  destruct (http_NewRequest_fails _ _); [done|].
  unfold_state. unfold Do. fold (listRequest cfg).
  destruct Hfail as [Hdo|(resp & Hdo & Hfail)]; rewrite Hdo; [done|].
  destruct Hfail as [Hst|Hdec].
  - by rewrite bool_decide_eq_true_2.
  - case_bool_decide; [done|]. by rewrite Hdec.
Qed.

(** X27: in a pull, a document whose file is readable and differs from
    its recorded base keeps its file: no write is made to it, whatever the
    server lists and sends. The names of the file list received, if any,
    are distinct and denote the path of the document only by its own
    name. *)
Theorem pull_keeps_dirty_local_file (cfg : Config) (d B content : string) (w : bool)
    (st : Client) :
  let path := filepath.Join [DirPath cfg; d] in
  (∀ resp rem l, http_Do (listRequest cfg) (remote st) = (Some resp, rem) →
                 json_Decode_files (RespBody resp) = Some l → namesApart cfg d l) →
  baseContents st !! d = Some B →
  fs (os st) !! path = Some (File true w content) →
  content ≠ B →
  keepsFile path st (syncWithServer cfg st).2.
Proof.
  intros path Hl Hb Hn Hdirty.
  apply (syncWithServer_frame cfg d (File true w content)); [done|done|].
  intros B' w' HB. rewrite Hb in HB. injection HB as <-. congruence.
Qed.

Lemma emits_refl P st : emits P st st.
Proof. exists []. by rewrite app_nil_r. Qed.

Lemma emits_trans P st1 st2 st3 :
  emits P st1 st2 → emits P st2 st3 → emits P st1 st3.
Proof.
  intros (e1 & Ht1 & Hw1) (e2 & Ht2 & Hw2).
  exists (e1 ++ e2). rewrite Ht2, Ht1, app_assoc. split; [done|].
  by apply Forall_app.
Qed.

Lemma forEach_emits {A} P (body : A → State Client unit) (l : list A) :
  (∀ x st, emits P st (body x st).2) →
  ∀ st, emits P st (forEach body l st).2.
Proof.
  intros Hbody. induction l as [|x l IH]; intros st; [apply emits_refl|].
  cbn [forEach]. unfold_state.
  pose proof (Hbody x st) as Hx.
  destruct (body x st) as [[] st1]. cbn in Hx.
  eapply emits_trans; [exact Hx|apply IH].
Qed.

Ltac solve_gets :=
  repeat (apply Forall_cons; split;
          [ intros ? ?; simplify_eq/=; done |]);
  by apply Forall_nil.

Lemma syncWithServer_body_gets (cfg : Config) (entry : string * string) (st : Client) :
  emits (isGet (Key cfg)) st (syncWithServer_body cfg entry st).2.
Proof.
  destruct entry as [f h].
  unfold syncWithServer_body, downloadFile, getBase, setBase, liftOS, Do,
    os_ReadFile, os_WriteFile, emits.
  unfold_state. cbn.
  repeat (case_match; simplify_eq/=).
  all: rewrite <- ?app_assoc; cbn [app].
  all: try (eexists; split; [reflexivity | solve_gets]).
  all: try (exists []; split; [by rewrite app_nil_r | by apply Forall_nil]).
Qed.

(** X19: a pull only asks: every request it sends is a GET without body
    that carries the configured key; it never sends a reconcile. *)
Theorem pull_sends_only_gets (cfg : Config) (st : Client) :
  emits (isGet (Key cfg)) st (syncWithServer cfg st).2.
Proof.
  unfold syncWithServer.
  destruct (http_NewRequest_fails _ _); [apply emits_refl|].
  unfold_state. unfold Do.
  destruct (http_Do _ (remote st)) as [resp rem].
  set (st1 := {| os := _; baseContents := _; remote := rem |}).
  assert (emits (isGet (Key cfg)) st st1) as H1.
  { eexists. split; [reflexivity|]. solve_gets. }
  destruct resp as [resp|]; [|done].
  case_bool_decide; [done|].
  destruct (json_Decode_files (RespBody resp)) as [l|]; [|done].
  eapply emits_trans; [exact H1|].
  apply forEach_emits. apply syncWithServer_body_gets.
Qed.

(** X20: when no merged answer comes back for an upload (the request
    cannot be built, the transport fails, the status is not OK, or the
    answer does not decode), [syncFile] changes no file and no base, so
    the document is still dirty at the next tick. *)
Theorem push_failed_upload_changes_nothing (cfg : Config)
    (filename base current : string) (st : Client) :
  let st' := (syncFile cfg filename base current st).2 in
  (∀ merged, ¬ answersMerged cfg filename base current merged st) →
  fs (os st') = fs (os st) ∧ baseContents st' = baseContents st.
Proof.
  intros st' Hno. subst st'. unfold syncFile.
  destruct (http_NewRequest_fails MethodPost _) eqn:Hnew; [done|].
  unfold_state. unfold Do.
  destruct (http_Do _ (remote st)) as [[resp|] rem] eqn:Hdo; [|done].
  case_bool_decide as Hst; [done|].
  destruct (json_Decode_SyncResponse (RespBody resp)) as [[merged]|] eqn:Hdec; [|done].
  exfalso. apply (Hno merged). split; [done|]. by exists resp, rem.
Qed.

(** X21: the round of an entry that is a directory, or whose name does
    not end in ".txt", or whose file cannot be read (missing by now, a
    directory, without read permission) sends nothing and changes no file
    and no base. *)
Theorem push_skips_what_it_cannot_upload (cfg : Config) (e : DirEntry) (st : Client) :
  let path := filepath.Join [DirPath cfg; Name e] in
  let st' := (checkAndUpload_body cfg e st).2 in
  (IsDir e = true
   ∨ strings_HasSuffix (Name e) ".txt" = false
   ∨ fs (os st) !! path = None
   ∨ ∃ n, fs (os st) !! path = Some n ∧ unreadable n) →
  fs (os st') = fs (os st)
  ∧ baseContents st' = baseContents st
  ∧ emits (λ ev, ∀ req, ev ≠ EvHTTP req) st st'.
Proof.
  intros path st' Hskip. subst st'. unfold checkAndUpload_body.
  destruct (IsDir e || negb (strings_HasSuffix (Name e) ".txt")) eqn:Hq.
  { split; [done|]. split; [done|]. apply emits_refl. }
  apply orb_false_iff in Hq as [Hd Htxt]. apply negb_false_iff in Htxt.
  destruct Hskip as [Hs|[Hs|Hn]]; [congruence|congruence|].
  unfold_state. unfold liftOS, os_ReadFile. fold path.
  assert (emits (λ ev, ∀ req, ev ≠ EvHTTP req) st
            {| os := record (EvReadFile path) (os st);
               baseContents := baseContents st; remote := remote st |}) as Hev.
  { exists [EvReadFile path]. split; [done|].
    apply Forall_cons. split; [by intros ? ?|by apply Forall_nil]. }
  destruct Hn as [->|(n & -> & [->|(w & c & ->)])]; by cbn.
Qed.

Ltac solve_uploads :=
  repeat (apply Forall_cons; split;
          [ intros ? ?; simplify_eq/=; repeat split; try done;
            eexists; repeat split; done |]);
  by apply Forall_nil.

Lemma syncFile_uploads (cfg : Config) (filename base current : string) (st : Client) :
  strings_HasSuffix filename ".txt" = true →
  current ≠ base →
  emits (isUpload cfg) st (syncFile cfg filename base current st).2.
Proof.
  intros Htxt Hdirty.
  unfold syncFile, setBase, liftOS, Do, os_WriteFile, emits.
  unfold_state. cbn.
  repeat (case_match; simplify_eq/=).
  all: rewrite <- ?app_assoc; cbn [app].
  all: try (eexists; split; [reflexivity | solve_uploads]).
  all: try (exists []; split; [by rewrite app_nil_r | by apply Forall_nil]).
Qed.

Lemma checkAndUpload_body_uploads_only (cfg : Config) (e : DirEntry) (st : Client) :
  emits (isUpload cfg) st (checkAndUpload_body cfg e st).2.
Proof.
  unfold checkAndUpload_body.
  destruct (IsDir e || negb (strings_HasSuffix (Name e) ".txt")) eqn:Hq;
    [apply emits_refl|].
  apply orb_false_iff in Hq as [Hd Htxt]. apply negb_false_iff in Htxt.
  unfold_state. unfold liftOS, getBase.
  destruct (os_ReadFile _ (os st)) as [[content err] o1] eqn:Hrd.
  set (st1 := {| os := o1; baseContents := baseContents st; remote := remote st |}).
  assert (emits (isUpload cfg) st st1) as H1.
  { exists [EvReadFile (filepath.Join [DirPath cfg; Name e])]. split.
    - unfold os_ReadFile in Hrd. repeat (case_match; simplify_eq/=); done.
    - apply Forall_cons. split; [by intros ? ?|by apply Forall_nil]. }
  destruct err as [err|]; [done|].
  case_bool_decide as Hsame; [done|].
  eapply emits_trans; [exact H1|]. by apply syncFile_uploads.
Qed.

(** X22: whatever the server answers, every request a push sends is an
    upload: a POST to the sync address with the configured key, for a name
    ending in ".txt", whose latest content differs from the base it
    carries. A push never fetches and never reconciles an unchanged
    document. *)
Theorem push_sends_only_uploads (cfg : Config) (st : Client) :
  emits (isUpload cfg) st (checkAndUpload cfg st).2.
Proof.
  unfold checkAndUpload, liftOS. unfold_state.
  destruct (os_ReadDir (DirPath cfg) (os st)) as [[entries err] o1] eqn:Hrd.
  set (st1 := {| os := o1; baseContents := baseContents st; remote := remote st |}).
  assert (emits (isUpload cfg) st st1) as H1.
  { exists [EvReadDir (DirPath cfg)]. split.
    - unfold os_ReadDir in Hrd. repeat (case_match; simplify_eq/=); done.
    - apply Forall_cons. split; [by intros ? ?|by apply Forall_nil]. }
  destruct err as [err|]; [done|].
  eapply emits_trans; [exact H1|].
  apply forEach_emits. apply checkAndUpload_body_uploads_only.
Qed.

Ltac solve_any :=
  repeat (apply Forall_cons; split; [done|]); by apply Forall_nil.

Lemma checkAndUpload_body_extends (cfg : Config) (e : DirEntry) (st : Client) :
  emits (λ _, True) st (checkAndUpload_body cfg e st).2.
Proof.
  unfold checkAndUpload_body, syncFile, getBase, setBase, liftOS, Do,
    os_ReadFile, os_WriteFile, emits.
  unfold_state. cbn.
  repeat (case_match; simplify_eq/=).
  all: rewrite <- ?app_assoc; cbn [app].
  all: try (eexists; split; [reflexivity | solve_any]).
  all: try (exists []; split; [by rewrite app_nil_r | by apply Forall_nil]).
Qed.

(** The round of a dirty readable [.txt] entry sends the reconcile call
    with the recorded base and the content of the file. *)
Lemma checkAndUpload_body_uploads (cfg : Config) (e : DirEntry) (st : Client)
    (w : bool) (content : string) :
  let path := filepath.Join [DirPath cfg; Name e] in
  let base := default "" (baseContents st !! Name e) in
  IsDir e = false →
  strings_HasSuffix (Name e) ".txt" = true →
  fs (os st) !! path = Some (File true w content) →
  content ≠ base →
  http_NewRequest_fails MethodPost (ServerURL cfg +:+ "/sync") = false →
  ∃ evs, trace (os (checkAndUpload_body cfg e st).2) = trace (os st) ++ evs
         ∧ EvHTTP (reconcileRequest cfg (Name e) base content) ∈ evs.
Proof.
  intros path base Hd Htxt Hn Hdirty Hnew.
  unfold checkAndUpload_body. rewrite Hd, Htxt. cbn [orb negb].
  unfold_state. unfold liftOS, os_ReadFile, getBase. fold path. rewrite Hn. cbn.
  fold base. rewrite bool_decide_eq_false_2 by done.
  unfold syncFile. rewrite Hnew. unfold_state. unfold Do. cbn.
  fold (reconcileRequest cfg (Name e) base content).
  set (call := EvHTTP _).
  assert (call ∈ [EvReadFile path; call]) as Hin by (right; left).
  unfold setBase, liftOS, os_WriteFile.
  repeat (case_match; simplify_eq/=).
  all: rewrite <- ?app_assoc; cbn [app].
  all: eexists; split; [reflexivity|].
  all: repeat (first [by left | right]).
Qed.

Lemma push_loop_uploads (cfg : Config) (d : string) (entries : list DirEntry)
    (st : Client) (w : bool) (content : string) :
  let path := filepath.Join [DirPath cfg; d] in
  let base := default "" (baseContents st !! d) in
  (∀ e, e ∈ entries → Name e ≠ d → filepath.Join [DirPath cfg; Name e] ≠ path) →
  (∃ e, e ∈ entries ∧ Name e = d ∧ IsDir e = false) →
  strings_HasSuffix d ".txt" = true →
  fs (os st) !! path = Some (File true w content) →
  content ≠ base →
  http_NewRequest_fails MethodPost (ServerURL cfg +:+ "/sync") = false →
  ∃ evs, trace (os (forEach (checkAndUpload_body cfg) entries st).2) = trace (os st) ++ evs
         ∧ EvHTTP (reconcileRequest cfg d base content) ∈ evs.
Proof.
  intros path base Hal Hin Htxt Hn Hdirty Hnew. subst base. revert st Hal Hin Hn Hdirty.
  induction entries as [|e entries IH]; intros st Hal (e0 & He0 & Hname & Hdir) Hn Hdirty.
  { by apply elem_of_nil in He0. }
  cbn [forEach]. unfold_state.
  destruct (decide (Name e = d ∧ IsDir e = false)) as [[Heq Hd]|Hnot].
  - clear e0 He0 Hname Hdir. subst d.
    destruct (checkAndUpload_body_uploads cfg e st w content Hd Htxt Hn Hdirty Hnew)
      as (evs1 & Ht1 & Hin1).
    destruct (checkAndUpload_body cfg e st) as [[] st1]. cbn in Ht1.
    destruct (forEach_emits (λ _, True) (checkAndUpload_body cfg) entries
                (checkAndUpload_body_extends cfg) st1) as (evs2 & Ht2 & _).
    exists (evs1 ++ evs2). rewrite Ht2, Ht1, app_assoc. split; [done|].
    apply elem_of_app. by left.
  - assert (∃ e1, e1 ∈ entries ∧ Name e1 = d ∧ IsDir e1 = false) as Hrest.
    { apply elem_of_cons in He0 as [->|He0]; [|by exists e0].
      exfalso. by apply Hnot. }
    assert (untouched d path st (checkAndUpload_body cfg e st).2) as Hu.
    { destruct (decide (Name e = d)) as [Heq|Hne].
      - assert (IsDir e = true) as Hd.
        { destruct (IsDir e) eqn:E; [done|]. exfalso. by apply Hnot. }
        unfold checkAndUpload_body. rewrite Hd. apply untouched_refl.
      - apply checkAndUpload_body_other; [done|]. apply Hal; [left|done]. }
    destruct (checkAndUpload_body cfg e st) as [[] st1]. cbn in Hu.
    destruct Hu as (Hf & Hb & evs1 & Ht1 & _).
    destruct (IH st1) as (evs2 & Ht2 & Hin2).
    + intros g Hg. apply Hal. by right.
    + done.
    + etrans; [exact Hf|exact Hn].
    + by rewrite Hb.
    + exists (evs1 ++ evs2). rewrite Ht2, Ht1, app_assoc. split; [done|].
      apply elem_of_app. right. by rewrite <- Hb.
Qed.

(** X23: the push finds every changed document: for a readable file of
    the local directory with a plain name ending in ".txt" whose content
    differs from the recorded base (the empty string when there is none),
    a reconcile call with that base and that content is sent. *)
Theorem push_uploads_every_dirty_document (cfg : Config) (d : string) (st : Client)
    (w : bool) (content : string) :
  let path := filepath.Join [DirPath cfg; d] in
  let base := default "" (baseContents st !! d) in
  fs (os st) !! filepath.Clean (DirPath cfg) = Some Dir →
  plainName d →
  strings_HasSuffix d ".txt" = true →
  fs (os st) !! path = Some (File true w content) →
  content ≠ base →
  http_NewRequest_fails MethodPost (ServerURL cfg +:+ "/sync") = false →
  ∃ evs, trace (os (checkAndUpload cfg st).2) = trace (os st) ++ evs
         ∧ EvHTTP (reconcileRequest cfg d base content) ∈ evs.
Proof.
  intros path base Hdir Hp Htxt Hn Hdirty Hnew.
  destruct (os_ReadDir_lists (DirPath cfg) d _ (os st) Hdir Hp Hn) as [Herr Hin].
  unfold checkAndUpload, liftOS. unfold_state.
  destruct (os_ReadDir (DirPath cfg) (os st)) as [[entries err] o1] eqn:Hrd.
  cbn in Herr, Hin. subst err.
  assert (fs o1 = fs (os st) ∧ trace o1 = trace (os st) ++ [EvReadDir (DirPath cfg)])
    as [Hfs Htr].
  { unfold os_ReadDir in Hrd. rewrite Hdir in Hrd. by simplify_eq/=. }
  set (st1 := {| os := o1; baseContents := baseContents st; remote := remote st |}).
  destruct (push_loop_uploads cfg d entries st1 w content) as (evs & Ht & Hev);
    try done.
  - intros e He Hne Hpath. apply Hne.
    erewrite <- (os_ReadDir_names (DirPath cfg) (os st) entries); [|by rewrite Hrd|done].
    fold path in Hpath. rewrite Hpath. by apply Join_plain_last.
  - by eexists.
  - cbn. by rewrite Hfs.
  - exists (EvReadDir (DirPath cfg) :: evs). rewrite Ht. cbn. rewrite Htr.
    rewrite <- app_assoc. split; [done|]. by right.
Qed.

(** X24: after a round that adopts the merged content (it equals the
    file, or the file can be written), the document is clean, and a
    second round right after it sends nothing and changes nothing for
    it. *)
Theorem push_leaves_document_clean (cfg : Config) (e : DirEntry) (st : Client)
    (w : bool) (content merged : string) :
  let filename := Name e in
  let path := filepath.Join [DirPath cfg; filename] in
  let base := default "" (baseContents st !! filename) in
  let st' := (checkAndUpload_body cfg e st).2 in
  IsDir e = false →
  strings_HasSuffix filename ".txt" = true →
  fs (os st) !! path = Some (File true w content) →
  content ≠ base →
  answersMerged cfg filename base content merged st →
  merged = content ∨ w = true →
  clean filename path st'
  ∧ untouched filename path st' (checkAndUpload_body cfg e st').2.
Proof.
  intros filename path base st' Hdir Htxt Hn Hdirty
    (Hnew & resp & rem & Hdo & Hok & Hdec) Hadopt.
  assert (clean filename path st') as Hc.
  { subst st'. unfold checkAndUpload_body. rewrite Hdir. fold filename. rewrite Htxt.
    cbn [orb negb]. unfold_state. unfold liftOS, os_ReadFile, getBase. fold path.
    rewrite Hn. cbn. fold base. rewrite bool_decide_eq_false_2 by done.
    unfold syncFile. rewrite Hnew. unfold_state. unfold Do. cbn.
    unfold reconcileRequest in Hdo. rewrite Hdo. cbn.
    rewrite Hok. rewrite bool_decide_eq_false_2 by (intros E; by apply E).
    rewrite Hdec. cbn. unfold clean.
    case_bool_decide as Hm.
    - destruct Hadopt as [?| ->]; [done|].
      unfold liftOS, os_WriteFile, setBase. cbn. fold path. rewrite Hn. cbn.
      exists true. by rewrite !lookup_insert_eq.
    - subst merged. unfold setBase. cbn. exists w.
      by rewrite lookup_insert_eq. }
  split; [done|]. by apply checkAndUpload_body_clean.
Qed.

Lemma sameKind_refl (n : node) : sameKind n n.
Proof. by destruct n. Qed.

Lemma sameKind_trans (n1 n2 n3 : node) :
  sameKind n1 n2 → sameKind n2 n3 → sameKind n1 n3.
Proof. destruct n1, n2, n3; cbn; intuition congruence. Qed.

Lemma keepsNodes_refl (m : gmap string node) : keepsNodes m m.
Proof. intros p n Hn. exists n. split; [done|apply sameKind_refl]. Qed.

Lemma keepsNodes_trans (m1 m2 m3 : gmap string node) :
  keepsNodes m1 m2 → keepsNodes m2 m3 → keepsNodes m1 m3.
Proof.
  intros H12 H23 p n Hn. destruct (H12 p n Hn) as (n2 & Hn2 & Hk2).
  destruct (H23 p n2 Hn2) as (n3 & Hn3 & Hk3).
  exists n3. split; [done|]. by eapply sameKind_trans.
Qed.

Lemma keepsNodes_create (m : gmap string node) (p : string) (n : node) :
  m !! p = None → keepsNodes m (<[p := n]> m).
Proof.
  intros Hp q nq Hq. destruct (decide (q = p)) as [->|Hne]; [congruence|].
  exists nq. rewrite lookup_insert_ne by done. split; [done|apply sameKind_refl].
Qed.

Lemma keepsNodes_overwrite (m : gmap string node) (p : string)
    (r w : bool) (c c' : string) :
  m !! p = Some (File r w c) → keepsNodes m (<[p := File r w c']> m).
Proof.
  intros Hp q nq Hq. destruct (decide (q = p)) as [->|Hne].
  - rewrite Hp in Hq. injection Hq as <-. exists (File r w c').
    by rewrite lookup_insert_eq.
  - exists nq. rewrite lookup_insert_ne by done. split; [done|apply sameKind_refl].
Qed.

Ltac solve_keeps :=
  first [ apply keepsNodes_refl
        | by apply keepsNodes_create
        | by eapply keepsNodes_overwrite ].

Lemma syncWithServer_body_keeps (cfg : Config) (entry : string * string) (st : Client) :
  keepsNodes (fs (os st)) (fs (os (syncWithServer_body cfg entry st).2)).
Proof.
  destruct entry as [f h].
  unfold syncWithServer_body, downloadFile, getBase, setBase, liftOS, Do,
    os_ReadFile, os_WriteFile.
  unfold_state. cbn.
  repeat (case_match; simplify_eq/=); solve_keeps.
Qed.

Lemma checkAndUpload_body_keeps (cfg : Config) (e : DirEntry) (st : Client) :
  keepsNodes (fs (os st)) (fs (os (checkAndUpload_body cfg e st).2)).
Proof.
  unfold checkAndUpload_body, syncFile, getBase, setBase, liftOS, Do,
    os_ReadFile, os_WriteFile.
  unfold_state. cbn.
  repeat (case_match; simplify_eq/=); solve_keeps.
Qed.

Lemma forEach_keeps {A} (body : A → State Client unit) (l : list A) :
  (∀ x st, keepsNodes (fs (os st)) (fs (os (body x st).2))) →
  ∀ st, keepsNodes (fs (os st)) (fs (os (forEach body l st).2)).
Proof.
  intros Hbody. induction l as [|x l IH]; intros st; [apply keepsNodes_refl|].
  cbn [forEach]. unfold_state.
  pose proof (Hbody x st) as Hx.
  destruct (body x st) as [[] st1]. cbn in Hx.
  eapply keepsNodes_trans; [exact Hx|apply IH].
Qed.

Lemma syncWithServer_keeps (cfg : Config) (st : Client) :
  keepsNodes (fs (os st)) (fs (os (syncWithServer cfg st).2)).
Proof.
  unfold syncWithServer.
  destruct (http_NewRequest_fails _ _); [apply keepsNodes_refl|].
  unfold_state. unfold Do.
  destruct (http_Do _ (remote st)) as [[resp|] rem]; [|apply keepsNodes_refl].
  case_bool_decide; [apply keepsNodes_refl|].
  destruct (json_Decode_files (RespBody resp)) as [l|]; [|apply keepsNodes_refl].
  exact (forEach_keeps (syncWithServer_body cfg) l (syncWithServer_body_keeps cfg)
           {| os := record (EvHTTP (listRequest cfg)) (os st);
              baseContents := baseContents st; remote := rem |}).
Qed.

Lemma checkAndUpload_keeps (cfg : Config) (st : Client) :
  keepsNodes (fs (os st)) (fs (os (checkAndUpload cfg st).2)).
Proof.
  unfold checkAndUpload, liftOS. unfold_state.
  destruct (os_ReadDir (DirPath cfg) (os st)) as [[entries err] o1] eqn:Hrd.
  assert (fs o1 = fs (os st)) as Hfs.
  { unfold os_ReadDir in Hrd.
    destruct (fs (os st) !! filepath.Clean (DirPath cfg)) as [[|? ? ?]|];
      by simplify_eq/=. }
  destruct err as [err|]; cbn; [rewrite Hfs; apply keepsNodes_refl|].
  rewrite <- Hfs.
  apply (forEach_keeps (checkAndUpload_body cfg) entries (checkAndUpload_body_keeps cfg)
           {| os := o1; baseContents := baseContents st; remote := remote st |}).
Qed.

Lemma tick_keeps (cfg : Config) (st : Client) :
  keepsNodes (fs (os st)) (fs (os (tick cfg st).2)).
Proof.
  unfold tick. unfold_state.
  pose proof (syncWithServer_keeps cfg st) as H1.
  destruct (syncWithServer cfg st) as [[] st1]. cbn in H1.
  eapply keepsNodes_trans; [exact H1|apply checkAndUpload_keeps].
Qed.

(** X25: the client never deletes: over the initial pull and any number
    of ticks, every local file and directory that was there is still
    there, a directory still a directory and a file still a file with the
    same permissions; only contents change and files are added. *)
Theorem rounds_never_delete (cfg : Config) (n : nat) (st : Client) :
  keepsNodes (fs (os st)) (fs (os (rounds cfg n st).2)).
Proof.
  unfold rounds. unfold_state.
  pose proof (syncWithServer_keeps cfg st) as H1.
  destruct (syncWithServer cfg st) as [[] st1]. cbn in H1.
  eapply keepsNodes_trans; [exact H1|]. clear H1 st.
  revert st1. induction n as [|n IH]; intros st; [apply keepsNodes_refl|].
  cbn [ticks]. unfold_state.
  pose proof (tick_keeps cfg st) as H1.
  destruct (tick cfg st) as [[] st2]. cbn in H1.
  eapply keepsNodes_trans; [exact H1|apply IH].
Qed.

End client_more.

(** X26: [getDefaultDir] never returns the empty path, whatever the home
    directory and the operating system. *)
Theorem getDefaultDir_nonempty (home : string * option error) (GOOS : string) :
  getDefaultDir home GOOS ≠ "".
Proof.
  assert (∀ l : list string, "notes" ∈ l → filepath.Join l ≠ "") as Hjoin.
  { intros l Hin. unfold filepath.Join.
    destruct (filter (λ e : string, e ≠ "") l) as [|e es] eqn:E.
    - assert ("notes" ∈ filter (λ e : string, e ≠ "") l) as Hf
        by (by apply list_elem_of_filter).
      rewrite E in Hf. by apply elem_of_nil in Hf.
    - apply Clean_nonempty. }
  unfold getDefaultDir. destruct (home.2); [done|].
  repeat case_bool_decide; try done; apply Hjoin; set_solver.
Qed.

(** ** The further properties on examples *)

Section more_on_examples.
Import examples more_examples.

Lemma note1_validName : validName (filepath.Base "note1.txt").
Proof. repeat split; vm_compute; try reflexivity; intros E; discriminate E. Qed.

Lemma handleSync_get_serves_file_witness :
  @server.handleSync plainExternals sample.srv (request "GET" "secret" "note1.txt" "")
    (store (File true true "hello"))
  = ({| StatusCode := StatusOK; ContentType := "text/plain; charset=utf-8";
        RespBody := "hello" |},
     record (EvReadFile "data/note1.txt") (store (File true true "hello"))).
Proof.
  apply (@handleSync_get_serves_file plainExternals sample.srv
           (request "GET" "secret" "note1.txt" "") (store (File true true "hello"))
           true "hello").
  - reflexivity.
  - reflexivity.
  - apply note1_validName.
  - vm_compute. reflexivity.
Defined.

Lemma handleSync_get_missing_file_witness :
  @server.handleSync plainExternals sample.srv (request "GET" "secret" "note1.txt" "")
    {| fs := <["data" := Dir]> ∅; trace := [] |}
  = (http_Error "Not Found" StatusNotFound,
     record (EvReadFile "data/note1.txt") {| fs := <["data" := Dir]> ∅; trace := [] |}).
Proof.
  apply (@handleSync_get_missing_file plainExternals sample.srv
           (request "GET" "secret" "note1.txt" "")
           {| fs := <["data" := Dir]> ∅; trace := [] |}).
  - reflexivity.
  - reflexivity.
  - apply note1_validName.
  - vm_compute. reflexivity.
Defined.

Lemma handleSync_get_rejects_bad_name_witness :
  @server.handleSync plainExternals sample.srv
    (request "GET" "secret" "../server.key" "") (store (File true true "hello"))
  = (http_Error "Invalid Filename" StatusBadRequest, store (File true true "hello")).
Proof.
  apply handleSync_get_rejects_bad_name.
  - reflexivity.
  - reflexivity.
  - vm_compute. intros E. discriminate E.
  - right. right. vm_compute. reflexivity.
Defined.

Lemma handleSync_read_failure_witness :
  @server.handleSync plainExternals sample.srv (request "GET" "secret" "note1.txt" "")
    (store Dir)
  = (http_Error "Internal Server Error" StatusInternalServerError,
     record (EvReadFile "data/note1.txt") (store Dir)).
Proof.
  apply (@handleSync_read_failure plainExternals sample.srv
           (request "GET" "secret" "note1.txt" "") (store Dir) "note1.txt" Dir).
  - reflexivity.
  - left. split; reflexivity.
  - apply note1_validName.
  - vm_compute. reflexivity.
  - left. reflexivity.
Defined.

Lemma handleSync_rejects_malformed_witness :
  @server.handleSync plainExternals sample.srv (request "DELETE" "secret" "note1.txt" "")
    (store (File true true "hello"))
  = (http_Error "Method Not Allowed" StatusMethodNotAllowed,
     store (File true true "hello")).
Proof.
  destruct (@handleSync_rejects_malformed plainExternals sample.srv
              (request "DELETE" "secret" "note1.txt" "")
              (store (File true true "hello"))) as [Hmethod _].
  - reflexivity.
  - apply Hmethod. split; vm_compute; intros E; discriminate E.
Defined.

Lemma handleSync_list_sound_witness :
  ∃ files,
    (@server.handleSync plainExternals sample.srv (request "GET" "secret" "" "")
       (store (File true true "hello"))).1
    = {| StatusCode := StatusOK; ContentType := "application/json";
         RespBody := @json_Encode_files plainExternals files |}
    ∧ ∀ name h, files !! name = Some h →
                @listed plainExternals sample.srv (store (File true true "hello")) name h.
Proof.
  apply (@handleSync_list_sound plainExternals sample.srv
           (request "GET" "secret" "" "") (store (File true true "hello"))).
  - reflexivity.
  - reflexivity.
  - reflexivity.
  - vm_compute. reflexivity.
Defined.

Lemma handleSync_get_reads_only_witness :
  fs (@server.handleSync plainExternals sample.srv (request "GET" "secret" "" "")
        (store (File true true "hello"))).2
  = fs (store (File true true "hello"))
  ∧ ∃ evs,
      trace (@server.handleSync plainExternals sample.srv (request "GET" "secret" "" "")
               (store (File true true "hello"))).2
      = trace (store (File true true "hello")) ++ evs
      ∧ Forall notWrite evs.
Proof.
  apply (@handleSync_get_reads_only plainExternals sample.srv
           (request "GET" "secret" "" "") (store (File true true "hello"))).
  reflexivity.
Defined.

Lemma handleSync_post_then_get_witness :
  ∃ merged,
    (@server.handleSync (postExternals edit) sample.srv (post "secret")
       (store (File true true "hello"))).1
    = @syncedAnswer (postExternals edit) merged
    ∧ (@server.handleSync (postExternals edit) sample.srv
         (request "GET" "secret" "note1.txt" "")
         (@server.handleSync (postExternals edit) sample.srv (post "secret")
            (store (File true true "hello"))).2).1
      = {| StatusCode := StatusOK; ContentType := "text/plain; charset=utf-8";
           RespBody := merged |}.
Proof.
  apply (@handleSync_post_then_get (postExternals edit) sample.srv (post "secret")
           (request "GET" "secret" "note1.txt" "") edit (store (File true true "hello"))).
  - reflexivity.
  - reflexivity.
  - reflexivity.
  - apply note1_validName.
  - right. exists "hello". vm_compute. reflexivity.
  - reflexivity.
  - reflexivity.
  - vm_compute. reflexivity.
Defined.

Lemma handleSync_post_without_change_witness :
  (@server.handleSync (postExternals confirm) sample.srv (post "secret")
     (store (File true true "hello world"))).1
  = @syncedAnswer (postExternals confirm) "hello world"
  ∧ fs (@server.handleSync (postExternals confirm) sample.srv (post "secret")
          (store (File true true "hello world"))).2
    = fs (store (File true true "hello world")).
Proof.
  destruct (@handleSync_post_without_change (postExternals confirm) sample.srv
              (post "secret") confirm (store (File true true "hello world")))
    as [Hstored _].
  - reflexivity.
  - reflexivity.
  - reflexivity.
  - apply note1_validName.
  - reflexivity.
  - apply Hstored. vm_compute. reflexivity.
Defined.

Lemma handleSync_posts_in_order_witness :
  ∃ merged1,
    (@server.handleSync twoExternals sample.srv (request "POST" "secret" "" "first")
       (store (File true true "hello"))).1
    = @syncedAnswer twoExternals merged1
    ∧ let merged2 := (merger.ThreeWayMerge "hello world" "hello world!" merged1).1 in
      (@server.handleSync twoExternals sample.srv (request "POST" "secret" "" "second")
         (@server.handleSync twoExternals sample.srv (request "POST" "secret" "" "first")
            (store (File true true "hello"))).2).1
      = @syncedAnswer twoExternals merged2
      ∧ fs (@server.handleSync twoExternals sample.srv
              (request "POST" "secret" "" "second")
              (@server.handleSync twoExternals sample.srv
                 (request "POST" "secret" "" "first")
                 (store (File true true "hello"))).2).2
        !! "data/note1.txt"
        = Some (File true true merged2).
Proof.
  apply (@handleSync_posts_in_order twoExternals sample.srv
           (request "POST" "secret" "" "first") (request "POST" "secret" "" "second")
           edit followUp (store (File true true "hello"))).
  - reflexivity.
  - reflexivity.
  - reflexivity.
  - reflexivity.
  - reflexivity.
  - reflexivity.
  - vm_compute. reflexivity.
  - apply note1_validName.
  - right. exists "hello". vm_compute. reflexivity.
Defined.

Lemma sanitized_name_stays_in_directory_witness :
  (filepath.Separator ∉ runes (filepath.Base "../../etc/note1.txt"))
  ∧ filepath.Base (filepath.Join ["data"; filepath.Base "../../etc/note1.txt"])
    = filepath.Base "../../etc/note1.txt"
  ∧ filepath.Join ["data"; filepath.Base "../../etc/note1.txt"] ≠ filepath.Clean "data".
Proof.
  apply sanitized_name_stays_in_directory.
  repeat split; vm_compute; try reflexivity; intros E; discriminate E.
Defined.

Lemma note1_plainName : plainName "note1.txt".
Proof.
  repeat split; try (intros E; discriminate E).
  vm_compute. intros Hin.
  repeat (apply elem_of_cons in Hin as [Hin|Hin]; [discriminate Hin|]).
  by apply elem_of_nil in Hin.
Qed.

Lemma handleSync_list_complete_witness :
  ∃ files,
    (@server.handleSync plainExternals sample.srv (request "GET" "secret" "" "")
       (store (File true true "hello"))).1
    = {| StatusCode := StatusOK; ContentType := "application/json";
         RespBody := @json_Encode_files plainExternals files |}
    ∧ files !! "note1.txt" = Some (@CalculateHash plainExternals "hello").
Proof.
  apply (@handleSync_list_complete plainExternals sample.srv
           (request "GET" "secret" "" "") (store (File true true "hello"))
           "note1.txt" "hello" true).
  - reflexivity.
  - reflexivity.
  - reflexivity.
  - vm_compute. reflexivity.
  - apply note1_plainName.
  - vm_compute. reflexivity.
  - vm_compute. reflexivity.
Defined.

Lemma pullNet_downloads (st : @client.Client pullNet) :
  @downloads pullNet sample.cfg "note1.txt" "hello there" st.
Proof. split; [reflexivity|]. eexists _, _. repeat split; reflexivity. Qed.

Lemma pull_creates_missing_file_witness :
  fs (client.os (@client.syncWithServer_body pullExternals pullNet sample.cfg
                   ("note1.txt", "hello there") freshClient).2)
  = <["notes/note1.txt" := File true true "hello there"]> (fs (client.os freshClient))
  ∧ client.baseContents
      (@client.syncWithServer_body pullExternals pullNet sample.cfg
         ("note1.txt", "hello there") freshClient).2
    = <["note1.txt" := "hello there"]> (client.baseContents freshClient).
Proof.
  apply (@pull_creates_missing_file pullExternals pullNet sample.cfg
           "note1.txt" "hello there" "hello there" freshClient).
  - left. vm_compute. reflexivity.
  - apply pullNet_downloads.
  - vm_compute. reflexivity.
Defined.

Lemma pull_fast_forwards_clean_file_witness :
  fs (client.os (@client.syncWithServer_body pullExternals pullNet sample.cfg
                   ("note1.txt", "hello there") cleanClient).2)
  = <["notes/note1.txt" := File true true "hello there"]> (fs (client.os cleanClient))
  ∧ client.baseContents
      (@client.syncWithServer_body pullExternals pullNet sample.cfg
         ("note1.txt", "hello there") cleanClient).2
    = <["note1.txt" := "hello there"]> (client.baseContents cleanClient).
Proof.
  apply (@pull_fast_forwards_clean_file pullExternals pullNet sample.cfg
           "note1.txt" "hello there" "hello" "hello there" cleanClient).
  - vm_compute. reflexivity.
  - vm_compute. intros E. discriminate E.
  - apply pullNet_downloads.
  - vm_compute. reflexivity.
Defined.

Lemma pull_skips_current_document_witness :
  @client.syncWithServer_body pullExternals pullNet sample.cfg
    ("note1.txt", "hello there") currentClient
  = (tt, currentClient).
Proof.
  apply (@pull_skips_current_document pullExternals pullNet sample.cfg
           "note1.txt" "hello there" "hello there" currentClient).
  - vm_compute. reflexivity.
  - reflexivity.
Defined.

Lemma pull_failed_download_changes_nothing_witness :
  fs (client.os (@client.syncWithServer_body pullExternals failNet sample.cfg
                   ("note1.txt", "hello there") offlineClient).2)
  = fs (client.os offlineClient)
  ∧ client.baseContents
      (@client.syncWithServer_body pullExternals failNet sample.cfg
         ("note1.txt", "hello there") offlineClient).2
    = client.baseContents offlineClient.
Proof.
  apply (@pull_failed_download_changes_nothing pullExternals failNet sample.cfg
           "note1.txt" "hello there" (ErrOther "transport") offlineClient).
  vm_compute. reflexivity.
Defined.

Lemma pull_failed_listing_changes_nothing_witness :
  fs (client.os (@client.syncWithServer pullExternals failNet sample.cfg offlineClient).2)
  = fs (client.os offlineClient)
  ∧ client.baseContents
      (@client.syncWithServer pullExternals failNet sample.cfg offlineClient).2
    = client.baseContents offlineClient.
Proof.
  apply (@pull_failed_listing_changes_nothing pullExternals failNet sample.cfg
           offlineClient).
  right. exists tt. left. reflexivity.
Defined.

Lemma push_failed_upload_changes_nothing_witness :
  fs (client.os (@client.syncFile pullExternals failNet sample.cfg
                   "note1.txt" "hello" "hello world" offlineClient).2)
  = fs (client.os offlineClient)
  ∧ client.baseContents
      (@client.syncFile pullExternals failNet sample.cfg
         "note1.txt" "hello" "hello world" offlineClient).2
    = client.baseContents offlineClient.
Proof.
  apply (@push_failed_upload_changes_nothing pullExternals failNet sample.cfg
           "note1.txt" "hello" "hello world" offlineClient).
  intros merged (_ & resp & rem & Hdo & _). discriminate Hdo.
Defined.

Lemma push_skips_what_it_cannot_upload_witness :
  fs (client.os (@client.checkAndUpload_body (pushExternals "x") pushNet sample.cfg
                   subdirectory (pushClient true "hello world" "hello")).2)
  = fs (client.os (pushClient true "hello world" "hello"))
  ∧ client.baseContents
      (@client.checkAndUpload_body (pushExternals "x") pushNet sample.cfg
         subdirectory (pushClient true "hello world" "hello")).2
    = client.baseContents (pushClient true "hello world" "hello")
  ∧ @emits pushNet (λ ev, ∀ req, ev ≠ EvHTTP req)
      (pushClient true "hello world" "hello")
      (@client.checkAndUpload_body (pushExternals "x") pushNet sample.cfg
         subdirectory (pushClient true "hello world" "hello")).2.
Proof.
  apply (@push_skips_what_it_cannot_upload (pushExternals "x") pushNet sample.cfg
           subdirectory (pushClient true "hello world" "hello")).
  left. reflexivity.
Defined.

Lemma push_uploads_every_dirty_document_witness :
  ∃ evs,
    trace (client.os (@client.checkAndUpload (pushExternals "hello brave world") pushNet
                        sample.cfg (pushClient true "hello world" "hello")).2)
    = trace (client.os (pushClient true "hello world" "hello")) ++ evs
    ∧ EvHTTP (@reconcileRequest sample.cfg "note1.txt" "hello" "hello world") ∈ evs.
Proof.
  apply (@push_uploads_every_dirty_document (pushExternals "hello brave world") pushNet
           sample.cfg "note1.txt" (pushClient true "hello world" "hello")
           true "hello world").
  - vm_compute. reflexivity.
  - apply note1_plainName.
  - vm_compute. reflexivity.
  - vm_compute. reflexivity.
  - vm_compute. intros E. discriminate E.
  - reflexivity.
Defined.

Lemma push_leaves_document_clean_witness :
  @clean pushNet "note1.txt" "notes/note1.txt"
    (@client.checkAndUpload_body (pushExternals "hello brave world") pushNet
       sample.cfg note1 (pushClient true "hello world" "hello")).2
  ∧ @untouched pushNet "note1.txt" "notes/note1.txt"
      (@client.checkAndUpload_body (pushExternals "hello brave world") pushNet
         sample.cfg note1 (pushClient true "hello world" "hello")).2
      (@client.checkAndUpload_body (pushExternals "hello brave world") pushNet
         sample.cfg note1
         (@client.checkAndUpload_body (pushExternals "hello brave world") pushNet
            sample.cfg note1 (pushClient true "hello world" "hello")).2).2.
Proof.
  apply (@push_leaves_document_clean (pushExternals "hello brave world") pushNet
           sample.cfg note1 (pushClient true "hello world" "hello")
           true "hello world" "hello brave world").
  - reflexivity.
  - vm_compute. reflexivity.
  - vm_compute. reflexivity.
  - vm_compute. intros E. discriminate E.
  - apply answers_brave.
  - right. reflexivity.
Defined.

Lemma pull_keeps_dirty_local_file_witness :
  @keepsFile pullNet "notes/note1.txt" dirtyClient
    (@client.syncWithServer pullExternals pullNet sample.cfg dirtyClient).2.
Proof.
  apply (@pull_keeps_dirty_local_file pullExternals pullNet sample.cfg
           "note1.txt" "hello" "hello world" true dirtyClient).
  - intros resp rem l _ Hl. cbn in Hl. injection Hl as <-. apply listing_namesApart.
  - vm_compute. reflexivity.
  - vm_compute. reflexivity.
  - vm_compute. intros E. discriminate E.
Defined.

End more_on_examples.
